(** * Zoom Mute Monitor

    A shallow embedding of [zoom_mute_monitor.py]: the settings store
    ([Config.load], [Config.save]), the status prober ([checkMuteStatus] with
    the AppleScript source it generates), the poll timer
    ([setCheckInterval_], [startMonitoring]) and the two keyword editors.

    Python strings are kept as their UTF-8 byte sequences.  Every separator and
    prefix the program tests for is ASCII, so a byte-wise prefix test, slice or
    split agrees with the code-point-wise one of the source. *)

From Stdlib Require Import ZArith String Ascii List Bool Lia.
From stdpp Require Import base option gmap strings list pretty.

Open Scope string_scope.

(** ** Python values and strings *)

Module Py.

(** The values a settings field can hold: what [json.load] produces, what a
    menu item's tag or a text field hands over.  A float is kept by its [repr]
    (Python prints the shortest text that reads back as the same float, so
    floats and reprs correspond one to one).  A list or a dict stored in a
    field is only ever kept, written back and printed, so it is kept by its
    type name and its printed form. *)
Inductive value : Type :=
| None_
| Bool (b : bool)
| Int (z : Z)
| Float (repr : string)
| Str (s : string)
| Other (ty : string) (printed : string).

(** [str(v)], which is also what an f-string field [{v}] prints. *)
Definition str (v : value) : string :=
  match v with
  | None_ => "None"
  | Bool true => "True"
  | Bool false => "False"
  | Int z => pretty z
  | Float r => r
  | Str s => s
  | Other _ p => p
  end.

(** [type(v).__name__] *)
Definition type_of (v : value) : string :=
  match v with
  | None_ => "NoneType"
  | Bool _ => "bool"
  | Int _ => "int"
  | Float _ => "float"
  | Str _ => "str"
  | Other ty _ => ty
  end.

(** Whether [v / 1000.0] is defined. *)
Definition numeric (v : value) : bool :=
  match v with
  | Bool _ | Int _ | Float _ => true
  | None_ | Str _ | Other _ _ => false
  end.

(** An exception object: [type(e).__name__] and [str(e)]. *)
Record exn : Type := Exn { type_name : string; message : string }.

Definition nl : string := String "010"%char EmptyString.
Definition dquote : ascii := "034"%char.
Definition backslash : ascii := "092"%char.
Definition pipe : ascii := "124"%char.

(** [s.startswith(p)] *)
Fixpoint startswith (p s : string) : bool :=
  match p with
  | EmptyString => true
  | String c p' =>
      match s with
      | EmptyString => false
      | String d s' => Ascii.eqb c d && startswith p' s'
      end
  end.

(** [s[n:]] *)
Fixpoint slice_from (n : nat) (s : string) : string :=
  match n, s with
  | O, _ => s
  | S n', String _ r => slice_from n' r
  | S _, EmptyString => EmptyString
  end.

(** [s.split(sep)] for a one-character separator: the pieces between the
    separators, empty pieces included; never an empty list. *)
Fixpoint split (sep : ascii) (s : string) : list string :=
  match s with
  | EmptyString => [EmptyString]
  | String c r =>
      if Ascii.eqb c sep then EmptyString :: split sep r
      else match split sep r with
           | piece :: pieces => String c piece :: pieces
           | [] => [String c EmptyString]
           end
  end.

(** Truth value of a string: [if s:] *)
Definition truthy (s : string) : bool :=
  match s with EmptyString => false | String _ _ => true end.

(** [needle in haystack] on strings. *)
Fixpoint contains (needle haystack : string) : bool :=
  startswith needle haystack
  || match haystack with
     | EmptyString => false
     | String _ r => contains needle r
     end.

End Py.

(** ** The settings record and the settings file *)

(** The attributes of a [Config] object.  Python does not type them: [load]
    stores whatever the JSON document holds under each key. *)
Record Config : Type := {
  window_x : Py.value;
  window_y : Py.value;
  icon_size : Py.value;
  muted_keyword : Py.value;
  unmuted_keyword : Py.value;
  check_interval : Py.value
}.

(** What [json.load] returns: a JSON object becomes a dict, anything else a
    value without a [get] method, of which the type name is kept. *)
Inductive document : Type :=
| DocObject (data : gmap string Py.value)
| DocOther (type_name : string).

(** The file at [CONFIG_FILE]. *)
Inductive FileState : Type :=
| Missing
| Unreadable (e : Py.exn)
| Malformed (e : Py.exn)
| Holds (doc : document).

(** The file system as [save] and [load] meet it: the file, and the failures
    [os.makedirs] and [open(..., 'w')] may answer with. *)
Record FS : Type := {
  file : FileState;
  makedirs_fault : option Py.exn;
  open_fault : option Py.exn
}.

(** ** The run loop's timers *)

(** A timer scheduled by [scheduledTimerWithTimeInterval_...repeats_(True)]:
    [period_ms] is the value the source divides by [1000.0] to get the
    interval in seconds; [valid] turns false on [invalidate()]. *)
Record Timer : Type := {
  period_ms : Py.value;
  valid : bool
}.

(** ** System Events *)

(** The queries the generated script sends to System Events. *)
Inductive Query : Type :=
| ExistsProcess (name : string)
| MenuItemNames (process : string).

(** The error dictionary of [executeAndReturnError_]:
    its [NSAppleScriptErrorMessage] entry, and [str(error)]. *)
Record ErrorInfo : Type := {
  NSAppleScriptErrorMessage : option string;
  printed : string
}.

(** What [executeAndReturnError_] hands back, and the System Events queries
    the script has sent by then. *)
Record Outcome : Type := {
  answer : option (option string) * option ErrorInfo;
  asked : list Query
}.

(** The world the program runs against.
    - [bridge_fault]: an exception raised by the PyObjC calls in the [try];
    - [syntax_error]: what NSAppleScript reports for a source that does not
      compile;
    - [events_fault]: System Events refuses the script's queries;
    - [process_exists]: [exists process name];
    - [menu_item_names]: [name of menu items of menu 1] of the menu bar item
      "ミーティング" of the process, or the message of the error raised on the
      way to it;
    - [spilled_script]: the keywords are pasted into the source as they are,
      so a keyword can close its string literal before it ends and the rest
      of it is then read as script.  AppleScript's grammar and commands are
      not modelled: what NSAppleScript answers for such a source (an error
      of the compiler, an error at run time or any text) and which queries
      it sends is given by the world, for the two texts pasted.  What such
      a script does besides (to files, to other applications) is outside
      the model;
    - [rect_fault]: what the bridge raises when a coordinate handed to
      [NSMakeRect] is no number. *)
Record Env : Type := {
  bridge_fault : option Py.exn;
  syntax_error : ErrorInfo;
  events_fault : option ErrorInfo;
  process_exists : string -> bool;
  menu_item_names : string -> string + list string;
  spilled_script : string -> string -> Outcome;
  rect_fault : Py.exn
}.

(** ** Application state *)

(** The [ZoomMuteMonitor] object ([timer], [config], [last_error]) together
    with the parts of the outside world its methods write: the settings file,
    standard output, the run loop's timers (a timer is known by its index),
    the System Events queries issued so far, and the states the run loop's
    timers have gone through: [run_loop_log] gets one entry, the timers as
    the call leaves them, for every call that schedules or invalidates a
    timer, in the order of the calls. *)
Record App : Type := {
  timer : option nat;
  config : Config;
  last_error : option string;
  fs : FS;
  stdout : list string;
  run_loop : list Timer;
  run_loop_log : list (list Timer);
  queries : list Query
}.

Definition with_timer (t : option nat) (a : App) : App :=
  {| timer := t; config := config a; last_error := last_error a; fs := fs a;
     stdout := stdout a; run_loop := run_loop a; run_loop_log := run_loop_log a;
     queries := queries a |}.

Definition with_config (c : Config) (a : App) : App :=
  {| timer := timer a; config := c; last_error := last_error a; fs := fs a;
     stdout := stdout a; run_loop := run_loop a; run_loop_log := run_loop_log a;
     queries := queries a |}.

Definition with_last_error (e : option string) (a : App) : App :=
  {| timer := timer a; config := config a; last_error := e; fs := fs a;
     stdout := stdout a; run_loop := run_loop a; run_loop_log := run_loop_log a;
     queries := queries a |}.

Definition with_fs (f : FS) (a : App) : App :=
  {| timer := timer a; config := config a; last_error := last_error a; fs := f;
     stdout := stdout a; run_loop := run_loop a; run_loop_log := run_loop_log a;
     queries := queries a |}.

Definition with_stdout (o : list string) (a : App) : App :=
  {| timer := timer a; config := config a; last_error := last_error a; fs := fs a;
     stdout := o; run_loop := run_loop a; run_loop_log := run_loop_log a;
     queries := queries a |}.

(** The run loop after a call that changes its timers: the timers as the
    call leaves them, and one more entry in the log. *)
Definition with_run_loop (r : list Timer) (a : App) : App :=
  {| timer := timer a; config := config a; last_error := last_error a; fs := fs a;
     stdout := stdout a; run_loop := r; run_loop_log := run_loop_log a ++ [r];
     queries := queries a |}.

Definition with_queries (q : list Query) (a : App) : App :=
  {| timer := timer a; config := config a; last_error := last_error a; fs := fs a;
     stdout := stdout a; run_loop := run_loop a; run_loop_log := run_loop_log a;
     queries := q |}.

(** ** Statements: state and exceptions *)

(** A Python statement either completes with a value or raises; either way it
    leaves a state behind.  An [except] clause sees the state as the raising
    statement left it. *)
Inductive Res (A : Type) : Type :=
| Val (a : A)
| Raised (e : Py.exn).
Arguments Val {A} a.
Arguments Raised {A} e.

Definition M (A : Type) : Type := App -> Res A * App.

Definition ret {A : Type} (a : A) : M A := fun s => (Val a, s).

Definition raise {A : Type} (e : Py.exn) : M A := fun s => (Raised e, s).

Definition bind {A B : Type} (m : M A) (f : A -> M B) : M B :=
  fun s => match m s with
           | (Val a, s') => f a s'
           | (Raised e, s') => (Raised e, s')
           end.

(** [try: body / except Exception as e: handler] *)
Definition try_except {A : Type} (body : M A) (handler : Py.exn -> M A) : M A :=
  fun s => match body s with
           | (Val a, s') => (Val a, s')
           | (Raised e, s') => handler e s'
           end.

Definition get : M App := fun s => (Val s, s).

Definition modify (f : App -> App) : M unit := fun s => (Val tt, f s).

Declare Scope py_scope.
Delimit Scope py_scope with py.
Notation "x <- m ;; k" := (bind m (fun x => k))
  (at level 100, m at next level, right associativity) : py_scope.
Notation "m ;; k" := (bind m (fun _ => k))
  (at level 100, right associativity) : py_scope.
Open Scope py_scope.

(** [print(line)] *)
Definition print (line : string) : M unit :=
  modify (fun a => with_stdout (stdout a ++ [line]) a).

(** ** Config *)

Definition default_muted_keyword : string := "オーディオのミュート解除".
Definition default_unmuted_keyword : string := "オーディオのミュート".

(** The attribute values [Config.__init__] assigns before it calls [load]. *)
Definition defaults : Config :=
  {| window_x := Py.None_;
     window_y := Py.None_;
     icon_size := Py.Int 100;
     muted_keyword := Py.Str default_muted_keyword;
     unmuted_keyword := Py.Str default_unmuted_keyword;
     check_interval := Py.Int 200 |}.

Definition set_window_x (v : Py.value) : M unit :=
  modify (fun a => with_config
    {| window_x := v; window_y := window_y (config a); icon_size := icon_size (config a);
       muted_keyword := muted_keyword (config a);
       unmuted_keyword := unmuted_keyword (config a);
       check_interval := check_interval (config a) |} a).

Definition set_window_y (v : Py.value) : M unit :=
  modify (fun a => with_config
    {| window_x := window_x (config a); window_y := v; icon_size := icon_size (config a);
       muted_keyword := muted_keyword (config a);
       unmuted_keyword := unmuted_keyword (config a);
       check_interval := check_interval (config a) |} a).

Definition set_icon_size (v : Py.value) : M unit :=
  modify (fun a => with_config
    {| window_x := window_x (config a); window_y := window_y (config a); icon_size := v;
       muted_keyword := muted_keyword (config a);
       unmuted_keyword := unmuted_keyword (config a);
       check_interval := check_interval (config a) |} a).

Definition set_muted_keyword (v : Py.value) : M unit :=
  modify (fun a => with_config
    {| window_x := window_x (config a); window_y := window_y (config a);
       icon_size := icon_size (config a);
       muted_keyword := v;
       unmuted_keyword := unmuted_keyword (config a);
       check_interval := check_interval (config a) |} a).

Definition set_unmuted_keyword (v : Py.value) : M unit :=
  modify (fun a => with_config
    {| window_x := window_x (config a); window_y := window_y (config a);
       icon_size := icon_size (config a);
       muted_keyword := muted_keyword (config a);
       unmuted_keyword := v;
       check_interval := check_interval (config a) |} a).

Definition set_check_interval (v : Py.value) : M unit :=
  modify (fun a => with_config
    {| window_x := window_x (config a); window_y := window_y (config a);
       icon_size := icon_size (config a);
       muted_keyword := muted_keyword (config a);
       unmuted_keyword := unmuted_keyword (config a);
       check_interval := v |} a).

(** [os.path.exists(CONFIG_FILE)] *)
Definition os_path_exists : M bool :=
  fun a => (Val (match file (fs a) with Missing => false | _ => true end), a).

(** [with open(CONFIG_FILE, 'r') as f: data = json.load(f)] *)
Definition json_load : M document :=
  fun a => match file (fs a) with
           | Missing => (Raised (Py.Exn "FileNotFoundError" "No such file or directory"), a)
           | Unreadable e => (Raised e, a)
           | Malformed e => (Raised e, a)
           | Holds doc => (Val doc, a)
           end.

(** [data.get(key, default)]; a value that is not a dict has no [get]. *)
Definition dict_get (data : document) (key : string) (default : Py.value) : M Py.value :=
  match data with
  | DocObject d => ret (match d !! key with Some v => v | None => default end)
  | DocOther ty =>
      raise (Py.Exn "AttributeError" ("'" ++ ty ++ "' object has no attribute 'get'"))
  end.

(** [Config.load] *)
Definition load : M unit :=
  try_except
    (present <- os_path_exists ;;
     if present then
       data <- json_load ;;
       v <- dict_get data "window_x" Py.None_ ;; set_window_x v ;;
       v <- dict_get data "window_y" Py.None_ ;; set_window_y v ;;
       v <- dict_get data "icon_size" (Py.Int 100) ;; set_icon_size v ;;
       v <- dict_get data "muted_keyword" (Py.Str default_muted_keyword) ;;
       set_muted_keyword v ;;
       v <- dict_get data "unmuted_keyword" (Py.Str default_unmuted_keyword) ;;
       set_unmuted_keyword v ;;
       v <- dict_get data "check_interval" (Py.Int 200) ;; set_check_interval v
     else ret tt)
    (fun e => print ("Failed to load config: " ++ Py.message e)).

(** [os.makedirs(os.path.dirname(CONFIG_FILE), exist_ok=True)] *)
Definition os_makedirs : M unit :=
  fun a => match makedirs_fault (fs a) with
           | Some e => (Raised e, a)
           | None => (Val tt, a)
           end.

(** [with open(CONFIG_FILE, 'w') as f: json.dump(data, f, indent=2)].  Every
    value of [Py.value] is serialisable, so once the file is open the dump
    goes through and the file holds the document. *)
Definition json_dump (data : gmap string Py.value) : M unit :=
  fun a => match open_fault (fs a) with
           | Some e => (Raised e, a)
           | None =>
               (Val tt,
                with_fs {| file := Holds (DocObject data);
                           makedirs_fault := makedirs_fault (fs a);
                           open_fault := open_fault (fs a) |} a)
           end.

(** The dict literal [Config.save] dumps. *)
Definition to_dict (c : Config) : gmap string Py.value :=
  <["check_interval" := check_interval c]>
  (<["unmuted_keyword" := unmuted_keyword c]>
  (<["muted_keyword" := muted_keyword c]>
  (<["icon_size" := icon_size c]>
  (<["window_y" := window_y c]>
  (<["window_x" := window_x c]> ∅))))).

(** [Config.save] *)
Definition save : M unit :=
  try_except
    (os_makedirs ;;
     a <- get ;;
     json_dump (to_dict (config a)))
    (fun e => print ("Failed to save config: " ++ Py.message e)).

(** [Config()]: the defaults, then [load]. *)
Definition Config_init : M unit :=
  modify (with_config defaults) ;; load.

(** ** The generated AppleScript *)

(** AppleScript's [is equal to] on text.  The runtime decides it under the
    script's [considering]/[ignoring] attributes (by default the case of
    letters is ignored), so the comparison is an interface of the model; all
    that is assumed of it is that a text equals itself.  [exact_match]
    compares the byte strings, the reading the keyword dialogs announce
    (完全一致). *)
Class TextComparison : Type := {
  is_equal_to : string -> string -> bool;
  is_equal_to_refl : forall s : string, is_equal_to s s = true
}.

#[global] Instance exact_match : TextComparison :=
  {| is_equal_to := String.eqb; is_equal_to_refl := String.eqb_refl |}.

(** The script source is the f-string of [checkMuteStatus]; all of it is fixed
    but the two texts pasted between the quotes of
    [set mutedKeyword to "..."] and [set unmutedKeyword to "..."]. *)
Record Script : Type := {
  mutedKeyword_text : string;
  unmutedKeyword_text : string
}.

Definition script_source (c : Config) : Script :=
  {| mutedKeyword_text := Py.str (muted_keyword c);
     unmutedKeyword_text := Py.str (unmuted_keyword c) |}.

(** The character an AppleScript escape [\c] stands for. *)
Definition unescape (c : ascii) : option ascii :=
  if Ascii.eqb c Py.dquote then Some Py.dquote
  else if Ascii.eqb c Py.backslash then Some Py.backslash
  else if Ascii.eqb c "n"%char then Some "010"%char
  else if Ascii.eqb c "r"%char then Some "013"%char
  else if Ascii.eqb c "t"%char then Some "009"%char
  else None.

(** The text a string literal denotes when [text] stands between its quotes.
    The source pastes the keyword unescaped.  [None] says that [text] is not
    the content of one literal: a double quote in it closes the literal
    early, a backslash at its end escapes the closing quote, or it holds a
    backslash that begins none of the five escapes.  [None] does not say
    that the source fails to compile: see [compile]. *)
Fixpoint read_literal (text : string) : option string :=
  match text with
  | EmptyString => Some EmptyString
  | String c rest =>
      if Ascii.eqb c Py.dquote then None
      else if Ascii.eqb c Py.backslash then
        match rest with
        | EmptyString => None
        | String e rest' =>
            match unescape e, read_literal rest' with
            | Some c', Some s => Some (String c' s)
            | _, _ => None
            end
        end
      else
        match read_literal rest with
        | Some s => Some (String c s)
        | None => None
        end
  end.

(** What follows the double quote that closes the literal early, when there
    is one and the text up to it reads as a literal. *)
Fixpoint after_literal (text : string) : option string :=
  match text with
  | EmptyString => None
  | String c rest =>
      if Ascii.eqb c Py.dquote then Some rest
      else if Ascii.eqb c Py.backslash then
        match rest with
        | EmptyString => None
        | String e rest' =>
            match unescape e with
            | Some _ => after_literal rest'
            | None => None
            end
        end
      else after_literal rest
  end.

(** A letter of the ASCII alphabet, and a text in lower case. *)
Definition is_letter (c : ascii) : bool :=
  let n := nat_of_ascii c in
  (Nat.leb 65 n && Nat.leb n 90) || (Nat.leb 97 n && Nat.leb n 122).

Definition to_lower (c : ascii) : ascii :=
  let n := nat_of_ascii c in
  if Nat.leb 65 n && Nat.leb n 90 then ascii_of_nat (n + 32) else c.

Fixpoint lower (s : string) : string :=
  match s with
  | EmptyString => EmptyString
  | String c r => String (to_lower c) (lower r)
  end.

(** The word [w] when the text is [w] followed by one double quote and
    nothing else, and [w] is made of letters. *)
Fixpoint word_before_quote (s : string) : option string :=
  match s with
  | EmptyString => None
  | String c r =>
      if Ascii.eqb c Py.dquote then
        match r with
        | EmptyString => Some EmptyString
        | String _ _ => None
        end
      else if is_letter c then
        match word_before_quote r with
        | Some w => Some (String c w)
        | None => None
        end
      else None
  end.

(** The words AppleScript itself gives a meaning: the reserved words of the
    language and the words its operators are written with. *)
Definition applescript_words : list string :=
  [ "a"; "about"; "above"; "after"; "against"; "an"; "and"; "apart"; "around";
    "as"; "aside"; "at"; "back"; "before"; "begin"; "beginning"; "begins";
    "behind"; "below"; "beneath"; "beside"; "between"; "but"; "by"; "come";
    "comes"; "considering"; "contain"; "contained"; "contains"; "continue";
    "copy"; "div"; "does"; "doesn"; "eighth"; "else"; "end"; "ends"; "equal";
    "equals"; "error"; "every"; "exit"; "false"; "fifth"; "first"; "for";
    "fourth"; "from"; "front"; "get"; "given"; "global"; "greater"; "if";
    "ignoring"; "in"; "instead"; "into"; "is"; "isn"; "it"; "its"; "last";
    "less"; "local"; "me"; "middle"; "mod"; "my"; "ninth"; "not"; "of"; "on";
    "onto"; "or"; "out"; "over"; "prop"; "property"; "put"; "ref";
    "reference"; "repeat"; "return"; "returning"; "script"; "second"; "set";
    "seventh"; "since"; "sixth"; "some"; "start"; "starts"; "tell"; "tenth";
    "than"; "that"; "the"; "then"; "third"; "through"; "thru"; "timeout";
    "times"; "to"; "transaction"; "true"; "try"; "until"; "use"; "using";
    "where"; "while"; "whose"; "with"; "without" ].

(** The one spill the model decides: the literal is closed early, a word of
    letters follows at once, and the text ends with a double quote right
    after that word, as in [Mute "Audio"].  The line of the source is then
    a literal, the word and an empty literal in a row; when the word is none
    of AppleScript's own it is a name, which cannot stand between two
    expressions, and the source does not compile. *)
Definition literal_name_literal (text : string) : bool :=
  match after_literal text with
  | Some rest =>
      match word_before_quote rest with
      | Some (String c w) =>
          negb (existsb (String.eqb (lower (String c w))) applescript_words)
      | Some EmptyString => false
      | None => false
      end
  | None => false
  end.

(** How NSAppleScript reads the source: it runs with the two keywords the
    literals denote, it is refused by the compiler, or a keyword spills into
    the script in a way the model does not decide.  The muted keyword's line
    comes first: when it spills, what the next line is read as is open. *)
Inductive Compiled : Type :=
| Runs (mutedKeyword unmutedKeyword : string)
| Refused
| Spills.

Definition compile (script : Script) : Compiled :=
  match read_literal (mutedKeyword_text script) with
  | Some mutedKeyword =>
      match read_literal (unmutedKeyword_text script) with
      | Some unmutedKeyword => Runs mutedKeyword unmutedKeyword
      | None =>
          if literal_name_literal (unmutedKeyword_text script) then Refused
          else Spills
      end
  | None =>
      if literal_name_literal (mutedKeyword_text script) then Refused
      else Spills
  end.

Section Prober.
Context `{TextComparison}.

(** [repeat with meetingItem in meetingMenuItems
       if (meetingItem as text) is equal to keyword then return ...]:
    whether the loop returns. *)
Fixpoint repeat_returns (keyword : string) (meetingMenuItems : list string) : bool :=
  match meetingMenuItems with
  | [] => false
  | meetingItem :: rest =>
      if is_equal_to meetingItem keyword then true
      else repeat_returns keyword rest
  end.

(** [repeat with menuItem in meetingMenuItems
       set itemList to itemList & (menuItem as text) & "|"] *)
Fixpoint item_list (itemList : string) (meetingMenuItems : list string) : string :=
  match meetingMenuItems with
  | [] => itemList
  | menuItem :: rest => item_list (itemList ++ menuItem ++ "|") rest
  end.

(** The body of [tell menu bar item "ミーティング" of mb] once the item names
    are read. *)
Definition tell_menu_bar_item (mutedKeyword unmutedKeyword : string)
    (meetingMenuItems : list string) : string :=
  if repeat_returns mutedKeyword meetingMenuItems then "muted"
  else if repeat_returns unmutedKeyword meetingMenuItems then "unmuted"
  else "unknown:" ++ item_list "" meetingMenuItems.

Definition ask (q : Query) : M unit :=
  modify (fun a => with_queries (queries a ++ [q]) a).

(** [tell process zoomProcName]: the [try] block with its [on error]. *)
Definition tell_process (env : Env) (zoomProcName mutedKeyword unmutedKeyword : string)
    : M (ErrorInfo + string) :=
  ask (MenuItemNames zoomProcName) ;;
  match menu_item_names env zoomProcName with
  | inl errMsg => ret (inr ("error:" ++ errMsg))
  | inr meetingMenuItems =>
      ret (inr (tell_menu_bar_item mutedKeyword unmutedKeyword meetingMenuItems))
  end.

(** [tell application "System Events"]: an error outside the inner [try]
    ends the script with an error dictionary ([inl]); otherwise the script
    returns a text ([inr]).  Every path through the block returns, so the
    source's closing [return "unknown"] is never reached. *)
Definition tell_System_Events (env : Env) (mutedKeyword unmutedKeyword : string)
    : M (ErrorInfo + string) :=
  ask (ExistsProcess "zoom.us") ;;
  match events_fault env with
  | Some err => ret (inl err)
  | None =>
      if process_exists env "zoom.us" then
        tell_process env "zoom.us" mutedKeyword unmutedKeyword
      else
        (ask (ExistsProcess "Zoom") ;;
         if process_exists env "Zoom" then
           tell_process env "Zoom" mutedKeyword unmutedKeyword
         else ret (inr "not_running"))
  end.

(** [NSAppleScript.alloc().initWithSource_(script)] and
    [executeAndReturnError_(None)]: the pair [(result, error)], where [result]
    is a descriptor, kept by its [stringValue()], or [None]. *)
Definition executeAndReturnError_ (env : Env) (script : Script)
    : M (option (option string) * option ErrorInfo) :=
  match bridge_fault env with
  | Some e => raise e
  | None =>
      match compile script with
      | Runs mutedKeyword unmutedKeyword =>
          r <- tell_System_Events env mutedKeyword unmutedKeyword ;;
          ret (match r with
               | inl err => (None, Some err)
               | inr text => (Some (Some text), None)
               end)
      | Refused => ret (None, Some (syntax_error env))
      | Spills =>
          let outcome :=
            spilled_script env (mutedKeyword_text script)
              (unmutedKeyword_text script) in
          modify (fun a => with_queries (queries a ++ asked outcome) a) ;;
          ret (answer outcome)
      end
  end.

(** ** The prober *)

Definition set_last_error (e : option string) : M unit :=
  modify (with_last_error e).

(** [error.get('NSAppleScriptErrorMessage', str(error))] *)
Definition error_get_message (error : ErrorInfo) : string :=
  match NSAppleScriptErrorMessage error with
  | Some m => m
  | None => printed error
  end.

Definition applescript_error (error_msg : string) : string :=
  "AppleScriptエラー:" ++ Py.nl ++ error_msg ++ Py.nl ++ Py.nl
  ++ "アクセシビリティ権限を確認してください".

Definition keyword_not_found (c : Config) : string :=
  "キーワードが見つかりません" ++ Py.nl ++ Py.nl
  ++ "ミュートキーワード: " ++ Py.str (muted_keyword c) ++ Py.nl
  ++ "ミュート解除キーワード: " ++ Py.str (unmuted_keyword c) ++ Py.nl ++ Py.nl
  ++ "画面上部ステータスバーのZoomアイコンを押した時に表示される項目を確認してください".

(** [for item in menu_items.split('|'): if item: error_details += f"- {item}\n"] *)
Fixpoint list_items (error_details : string) (pieces : list string) : string :=
  match pieces with
  | [] => error_details
  | item :: rest =>
      list_items (if Py.truthy item then error_details ++ "- " ++ item ++ Py.nl
                  else error_details) rest
  end.

(** The statements of [checkMuteStatus] that follow the scripting call inside
    the [try]: they read the pair [(result, error)], record [last_error] and
    return [True] ([Some true], muted), [False] ([Some false], unmuted) or
    [None] (unknown). *)
Definition classify_result (r : option (option string) * option ErrorInfo)
    : M (option bool) :=
  let result := fst r in
  let error := snd r in
  match error with
  | Some error =>
      let error_msg := error_get_message error in
      set_last_error (Some (applescript_error error_msg)) ;;
      ret None
  | None =>
      let status :=
        match result with
        | Some (Some text) => text
        | Some None => "None"
        | None => "unknown"
        end in
      if String.eqb status "muted" then
        (set_last_error None ;; ret (Some true))
      else if String.eqb status "unmuted" then
        (set_last_error None ;; ret (Some false))
      else
        (a <- get ;;
         (if String.eqb status "not_running" then
            set_last_error (Some "Zoomが起動していません")
          else if Py.startswith "unknown:" status then
            let menu_items := Py.slice_from 8 status in
            let error_details :=
              keyword_not_found (config a) ++ Py.nl ++ Py.nl
              ++ "【実際のメニュー項目】" ++ Py.nl in
            set_last_error
              (Some (list_items error_details (Py.split Py.pipe menu_items)))
          else if Py.startswith "error:" status then
            let error_msg := Py.slice_from 6 status in
            set_last_error (Some (applescript_error error_msg))
          else if String.eqb status "unknown" then
            set_last_error (Some (keyword_not_found (config a)))
          else
            set_last_error (Some ("不明なステータス: " ++ status))) ;;
         ret None)
  end.

(** The message recorded for an exception caught by the outer [except]. *)
Definition unexpected_error (e : Py.exn) : string :=
  "予期しないエラー:" ++ Py.nl ++ Py.type_name e ++ ": " ++ Py.message e.

(** [checkMuteStatus]: the script is built from the keywords of the moment,
    run, and its answer classified; whatever is raised on the way is caught. *)
Definition checkMuteStatus (env : Env) : M (option bool) :=
  a <- get ;;
  let script := script_source (config a) in
  try_except
    (r <- executeAndReturnError_ env script ;;
     classify_result r)
    (fun e =>
       set_last_error (Some (unexpected_error e)) ;;
       ret None).

(** [updateStatus_]: one poll.  The icon swap of the view is outside [App]. *)
Definition updateStatus_ (env : Env) : M unit :=
  is_muted <- checkMuteStatus env ;;
  ret tt.

(** ** The scheduler *)

(** [NSTimer.scheduledTimerWithTimeInterval_...(interval / 1000.0, ...)]: the
    new timer's index in the run loop. *)
Definition scheduledTimer (interval : Py.value) : M nat :=
  fun a =>
    if Py.numeric interval then
      (Val (length (run_loop a)),
       with_run_loop (run_loop a ++ [{| period_ms := interval; valid := true |}]) a)
    else
      (Raised (Py.Exn "TypeError"
                 ("unsupported operand type(s) for /: '" ++ Py.type_of interval
                  ++ "' and 'float'")), a).

(** A timer after [invalidate()]. *)
Definition invalidated (tm : Timer) : Timer :=
  {| period_ms := period_ms tm; valid := false |}.

(** [timer.invalidate()] *)
Definition invalidate (t : nat) : M unit :=
  modify (fun a => with_run_loop (alter invalidated t (run_loop a)) a).

(** The first half of the timer restart: [if self.timer: self.timer.invalidate()] *)
Definition stop_timer : M unit :=
  a <- get ;;
  match timer a with
  | Some t => invalidate t
  | None => ret tt
  end.

(** The second half: [self.timer = NSTimer.scheduledTimer...] *)
Definition start_timer (interval : Py.value) : M unit :=
  t <- scheduledTimer interval ;;
  modify (with_timer (Some t)).

(** [setCheckInterval_], with [tag] for [sender.tag()]. *)
Definition setCheckInterval_ (tag : Z) : M unit :=
  let interval := Py.Int tag in
  set_check_interval interval ;;
  save ;;
  stop_timer ;;
  start_timer interval.

(** [setIconSize_]; resizing the view is outside [App]. *)
Definition setIconSize_ (tag : Z) : M unit :=
  let size := Py.Int tag in
  set_icon_size size ;;
  save.

(** ** The keyword editors *)

(** AppKit's [NSAlertFirstButtonReturn], the answer of the OK button. *)
Definition NSAlertFirstButtonReturn : Z := 1000.

(** [setMutedKeyword_], with [response] for [alert.runModal()] and
    [stringValue] for [input_field.stringValue()]. *)
Definition setMutedKeyword_ (response : Z) (stringValue : string) : M unit :=
  if Z.eqb response NSAlertFirstButtonReturn then
    let new_keyword := stringValue in
    if Py.truthy new_keyword then
      (set_muted_keyword (Py.Str new_keyword) ;; save)
    else ret tt
  else ret tt.

(** [setUnmutedKeyword_] *)
Definition setUnmutedKeyword_ (response : Z) (stringValue : string) : M unit :=
  if Z.eqb response NSAlertFirstButtonReturn then
    let new_keyword := stringValue in
    if Py.truthy new_keyword then
      (set_unmuted_keyword (Py.Str new_keyword) ;; save)
    else ret tt
  else ret tt.

(** ** The running application *)

(** [ZoomMuteMonitor.init] *)
Definition init : M unit :=
  modify (with_timer None) ;;
  Config_init ;;
  set_last_error None.

(** [icon_size + 40]: the [TypeError] Python raises when [icon_size] is no
    number. *)
Definition add_int_TypeError (v : Py.value) : Py.exn :=
  Py.Exn "TypeError"
    (match v with
     | Py.Str _ =>
         "can only concatenate str (not " ++ String Py.dquote "int"
         ++ String Py.dquote ") to str"
     | Py.Other "list" _ =>
         "can only concatenate list (not " ++ String Py.dquote "int"
         ++ String Py.dquote ") to list"
     | _ =>
         "unsupported operand type(s) for +: '" ++ Py.type_of v ++ "' and 'int'"
     end).

(** [x is not None] *)
Definition is_not_None (v : Py.value) : bool :=
  match v with Py.None_ => false | _ => true end.

(** [setupWindow].  The window and the view it creates are outside [App]
    (a main screen is taken to be there): what is kept is where the method
    raises.  [window_size = self.config.icon_size + 40] needs a number; a
    saved position is handed to [NSMakeRect] as it is, so both coordinates
    must be numbers when both are there; without a saved position the
    coordinates are computed from the screen and the window size. *)
Definition setupWindow (env : Env) : M unit :=
  a <- get ;;
  if Py.numeric (icon_size (config a)) then
    if is_not_None (window_x (config a)) && is_not_None (window_y (config a)) then
      if Py.numeric (window_x (config a)) && Py.numeric (window_y (config a))
      then ret tt
      else raise (rect_fault env)
    else ret tt
  else raise (add_int_TypeError (icon_size (config a))).

(** [startMonitoring] *)
Definition startMonitoring (env : Env) : M unit :=
  setupWindow env ;;
  a <- get ;;
  start_timer (check_interval (config a)) ;;
  updateStatus_ env.

(** [main]: [monitor = ZoomMuteMonitor.alloc().init()] and
    [monitor.startMonitoring()]. *)
Definition main (env : Env) : M unit :=
  init ;;
  startMonitoring env.

(** The state the process starts in, given the file system it finds. *)
Definition boot (fs0 : FS) : App :=
  {| timer := None; config := defaults; last_error := None; fs := fs0;
     stdout := []; run_loop := []; run_loop_log := []; queries := [] |}.

(** What the run loop delivers once [app.run()] is entered: the firing of a
    timer and the menu actions. *)
Inductive Event : Type :=
| Tick (t : nat) (env : Env)
| SetIconSize (tag : Z)
| SetCheckInterval (tag : Z)
| SetMutedKeyword (response : Z) (stringValue : string)
| SetUnmutedKeyword (response : Z) (stringValue : string).

Definition handle (ev : Event) : M unit :=
  match ev with
  | Tick _ env => updateStatus_ env
  | SetIconSize tag => setIconSize_ tag
  | SetCheckInterval tag => setCheckInterval_ tag
  | SetMutedKeyword response stringValue => setMutedKeyword_ response stringValue
  | SetUnmutedKeyword response stringValue => setUnmutedKeyword_ response stringValue
  end.

(** Only a valid timer fires. *)
Definition enabled (ev : Event) (a : App) : Prop :=
  match ev with
  | Tick t _ => exists tm, run_loop a !! t = Some tm /\ valid tm = true
  | _ => True
  end.

(** The states of a run of [main]. *)
Inductive running : App -> Prop :=
| running_main fs0 env a :
    main env (boot fs0) = (Val tt, a) -> running a
| running_step a ev a' :
    running a -> enabled ev a -> handle ev a = (Val tt, a') -> running a'.

(** The timers that can still fire. *)
Definition live_timers (a : App) : list Timer :=
  List.filter valid (run_loop a).

End Prober.

(** ** Vocabulary of the statements *)

(** A text without a double quote or a backslash: pasted between quotes it
    is a literal for itself. *)
Fixpoint plain (s : string) : bool :=
  match s with
  | EmptyString => true
  | String c r => negb (Ascii.eqb c Py.dquote) && negb (Ascii.eqb c Py.backslash) && plain r
  end.

(** A text without the separator of the item dump. *)
Fixpoint pipe_free (s : string) : bool :=
  match s with
  | EmptyString => true
  | String c r => negb (Ascii.eqb c Py.pipe) && pipe_free r
  end.

(** Each keyword, pasted between the quotes of its line, is the content of
    one string literal: it holds no double quote except after a backslash,
    and no backslash except in the escapes of [unescape]. *)
Definition literal_keywords (c : Config) : Prop :=
  is_Some (read_literal (Py.str (muted_keyword c)))
  /\ is_Some (read_literal (Py.str (unmuted_keyword c))).

(** The scripting call goes through and System Events answers. *)
Definition answers (env : Env) : Prop :=
  bridge_fault env = None /\ events_fault env = None.


(** The name under which the script finds the process, in the order it
    tries the two names. *)
Definition zoomProcName (env : Env) : option string :=
  if process_exists env "zoom.us" then Some "zoom.us"
  else if process_exists env "Zoom" then Some "Zoom"
  else None.

(** The queries of that search. *)
Definition lookup_queries (env : Env) : list Query :=
  if process_exists env "zoom.us" then [ExistsProcess "zoom.us"]
  else [ExistsProcess "zoom.us"; ExistsProcess "Zoom"].

(** The script reads the item names [L] from the menu of the process. *)
Definition menu_read (env : Env) (L : list string) : Prop :=
  exists p : string, zoomProcName env = Some p /\ menu_item_names env p = inr L.

(** Whether a query reads the menu. *)
Definition reads_menu (q : Query) : bool :=
  match q with
  | MenuItemNames _ => true
  | ExistsProcess _ => false
  end.

(** A configuration with one keyword replaced, as the editors leave it. *)
Definition with_muted_keyword (text : string) (c : Config) : Config :=
  {| window_x := window_x c; window_y := window_y c; icon_size := icon_size c;
     muted_keyword := Py.Str text;
     unmuted_keyword := unmuted_keyword c;
     check_interval := check_interval c |}.

Definition with_unmuted_keyword (text : string) (c : Config) : Config :=
  {| window_x := window_x c; window_y := window_y c; icon_size := icon_size c;
     muted_keyword := muted_keyword c;
     unmuted_keyword := Py.Str text;
     check_interval := check_interval c |}.

(** At most one timer of a run loop can fire. *)
Definition at_most_one_live (l : list Timer) : Prop :=
  length (List.filter valid l) <= 1.

(** The settings [setupWindow] goes through with. *)
Definition window_fits (c : Config) : bool :=
  Py.numeric (icon_size c)
  && (negb (is_not_None (window_x c) && is_not_None (window_y c))
      || (Py.numeric (window_x c) && Py.numeric (window_y c))).


(** The state the timers are kept in by a run: the monitor holds the one
    live timer, and its period is the configured interval. *)
Definition single_timer (a : App) : Prop :=
  exists t tm,
    timer a = Some t
    /\ run_loop a !! t = Some tm
    /\ valid tm = true
    /\ period_ms tm = check_interval (config a)
    /\ live_timers a = [tm].

(** The statuses the classification names: the four exact texts and the two
    prefixes. *)
Definition recognised (status : string) : bool :=
  String.eqb status "muted" || String.eqb status "unmuted"
  || String.eqb status "not_running" || String.eqb status "unknown"
  || Py.startswith "unknown:" status || Py.startswith "error:" status.

(** One line of the item dump per item. *)
Fixpoint item_lines (L : list string) : string :=
  match L with
  | [] => EmptyString
  | item :: rest => "- " ++ item ++ Py.nl ++ item_lines rest
  end.

(** The fields of a settings document, each with the fallback [load] names. *)
Definition fields_of (data : gmap string Py.value) : Config :=
  {| window_x := default Py.None_ (data !! "window_x");
     window_y := default Py.None_ (data !! "window_y");
     icon_size := default (Py.Int 100) (data !! "icon_size");
     muted_keyword := default (Py.Str default_muted_keyword) (data !! "muted_keyword");
     unmuted_keyword :=
       default (Py.Str default_unmuted_keyword) (data !! "unmuted_keyword");
     check_interval := default (Py.Int 200) (data !! "check_interval") |}.

(** ** The overlay view and the context menu *)

(** [n == v] for an integer [n] and a settings value [v].  A float equals
    [n] when it is the float of [n], whose repr is the digits of [n]
    followed by ".0" (for an [n] below ten to the sixteenth, as every preset
    is); zero has two floats. *)
Definition int_eq_value (n : Z) (v : Py.value) : bool :=
  match v with
  | Py.Int z => Z.eqb n z
  | Py.Bool b => Z.eqb n (if b then 1 else 0)
  | Py.Float r =>
      String.eqb r (pretty n ++ ".0")
      || (Z.eqb n 0 && String.eqb r "-0.0")
  | Py.None_ | Py.Str _ | Py.Other _ _ => false
  end.

(** The image of the image view: the icon file it was read from and the side
    passed to [setSize_]. *)
Record Image : Type := {
  icon_file : string;
  image_side : Py.value
}.

(** The [MuteStatusView] with the frame sizes it sets: where a drag started
    (a point, by the reprs of its coordinates), the image shown, the size of
    the window and the size of the image view. *)
Record View : Type := {
  drag_start : option (string * string);
  image : option Image;
  window_width : Py.value;
  window_height : Py.value;
  image_view_width : Py.value;
  image_view_height : Py.value
}.

(** The icon directory as [updateStatus_] meets it: [os.path.exists] of a
    file of [ICON_DIR], whether [NSImage] can read it, and what the bridge
    raises when a size is no number. *)
Record Icons : Type := {
  icon_exists : string -> bool;
  image_loads : string -> bool;
  size_error : Py.exn
}.

(** The icon file [MuteStatusView.updateStatus_] picks. *)
Definition icon_for (is_muted : option bool) : string :=
  match is_muted with
  | None => "unknown-512.png"
  | Some true => "micOff-512.png"
  | Some false => "micOn-512.png"
  end.

Definition with_image (i : option Image) (v : View) : View :=
  {| drag_start := drag_start v; image := i;
     window_width := window_width v; window_height := window_height v;
     image_view_width := image_view_width v;
     image_view_height := image_view_height v |}.

Definition with_drag_start (d : option (string * string)) (v : View) : View :=
  {| drag_start := d; image := image v;
     window_width := window_width v; window_height := window_height v;
     image_view_width := image_view_width v;
     image_view_height := image_view_height v |}.

(** [MuteStatusView.updateStatus_]: without the file, or when the image
    cannot be read, the view keeps what it shows. *)
Definition View_updateStatus_ (icons : Icons) (is_muted : option bool) (v : View)
    : M View :=
  let icon_path := icon_for is_muted in
  if negb (icon_exists icons icon_path) then ret v
  else if image_loads icons icon_path then
    (a <- get ;;
     if Py.numeric (icon_size (config a)) then
       ret (with_image
              (Some {| icon_file := icon_path; image_side := icon_size (config a) |}) v)
     else raise (size_error icons))
  else ret v.

(** [MuteStatusView.updateIconSize_]: the window becomes [size + 40] wide
    and high, the image view 20 less. *)
Definition View_updateIconSize_ (size : Z) (v : View) : View :=
  let new_window_size := (size + 40)%Z in
  let new_size := (new_window_size - 20)%Z in
  {| drag_start := drag_start v; image := image v;
     window_width := Py.Int new_window_size;
     window_height := Py.Int new_window_size;
     image_view_width := Py.Int new_size;
     image_view_height := Py.Int new_size |}.

(** [mouseDown_], with the event's location in the window. *)
Definition mouseDown_ (location : string * string) (v : View) : View :=
  with_drag_start (Some location) v.

(** [mouseUp_], with the origin of the window's frame at that moment. *)
Definition mouseUp_ (origin : string * string) (v : View) : M View :=
  match drag_start v with
  | Some _ =>
      set_window_x (Py.Float (fst origin)) ;;
      set_window_y (Py.Float (snd origin)) ;;
      save ;;
      ret (with_drag_start None v)
  | None => ret v
  end.

(** An [NSMenuItem] with its title, action, tag and whether it can be
    chosen; an entry of an [NSMenu]: a separator, an item, or an item with a
    submenu. *)
Record MenuItem : Type := {
  title : string;
  action : option string;
  tag : option Z;
  is_enabled : bool
}.

Inductive MenuEntry : Type :=
| Separator
| Item (i : MenuItem)
| Submenu (heading : string) (items : list MenuItem).

Definition check_mark : string := " ✓".

Definition size_presets : list Z := [50; 100; 150; 200; 250; 300; 350; 400; 450; 500]%Z.

Definition interval_presets : list Z := [10; 30; 50; 100; 200; 300; 500; 1000]%Z.

Definition size_item (c : Config) (size : Z) : MenuItem :=
  {| title := pretty size ++ "px"
              ++ (if int_eq_value size (icon_size c) then check_mark else "");
     action := Some "setIconSize:"; tag := Some size; is_enabled := true |}.

Definition interval_item (c : Config) (interval : Z) : MenuItem :=
  {| title := pretty interval ++ "ms"
              ++ (if int_eq_value interval (check_interval c) then check_mark else "");
     action := Some "setCheckInterval:"; tag := Some interval; is_enabled := true |}.

Definition plain_item (t a : string) : MenuEntry :=
  Item {| title := t; action := Some a; tag := None; is_enabled := true |}.

(** The menu [rightMouseDown_] builds, with [is_login_item] for the answer
    of [isLoginItem()]. *)
Definition context_menu (a : App) (is_login_item : bool) : list MenuEntry :=
  ([ Submenu "アイコンサイズ" (map (size_item (config a)) size_presets);
     Submenu "監視間隔" (map (interval_item (config a)) interval_presets);
     Separator;
     plain_item "ミュート検知キーワード設定..." "setMutedKeyword:";
     plain_item "ミュート解除検知キーワード設定..." "setUnmutedKeyword:";
     Separator ]
   ++ match last_error a with
      | Some _ => [ plain_item "エラー表示" "showError:" ]
      | None => []
      end
   ++ [ plain_item "アクセシビリティ設定を開く" "openAccessibilitySettings:";
        Separator;
        plain_item ("ログイン時に自動起動" ++ (if is_login_item then check_mark else ""))
          "toggleLoginItem:";
        Separator;
        Item {| title := "ver 1.0.0"; action := None; tag := None; is_enabled := false |};
        Separator;
        plain_item "終了" "terminate:" ])%list.

(** The informative text of the alert [showError_] shows. *)
Definition showError_text (a : App) : string :=
  match last_error a with
  | Some e => if Py.truthy e then e else "エラー情報はありません"
  | None => "エラー情報はありません"
  end.

Section Overlay.
Context `{TextComparison}.

(** [ZoomMuteMonitor.updateStatus_] with the view it updates: the poll, then
    the icon. *)
Definition Monitor_updateStatus_ (icons : Icons) (env : Env) (v : View) : M View :=
  is_muted <- checkMuteStatus env ;;
  View_updateStatus_ icons is_muted v.

(** [ZoomMuteMonitor.setIconSize_] with the view it resizes. *)
Definition Monitor_setIconSize_ (tag : Z) (v : View) : M View :=
  setIconSize_ tag ;;
  ret (View_updateIconSize_ tag v).

End Overlay.

(** Whether a preset item carries the check mark. *)
Definition marked (i : MenuItem) : bool := Py.contains check_mark (title i).

(** The entry that opens the error viewer. *)
Definition error_entry : MenuEntry := plain_item "エラー表示" "showError:".

(** The settings file can be written. *)
Definition writable (f : FS) : Prop :=
  makedirs_fault f = None /\ open_fault f = None.

(** What [Config()] would read from the file of a state. *)
Definition reloaded (a : App) : Config := config (snd (Config_init a)).

(** The keys of the document [save] writes. *)
Definition settings_keys : list string :=
  ["window_x"; "window_y"; "icon_size"; "muted_keyword"; "unmuted_keyword";
   "check_interval"].


(** ** Sample worlds *)

Definition fs_writable : FS :=
  {| file := Missing; makedirs_fault := None; open_fault := None |}.

Definition sample_syntax_error : ErrorInfo :=
  {| NSAppleScriptErrorMessage := Some "Expected end of line but found identifier.";
     printed := "{NSAppleScriptErrorNumber = -2741;}" |}.


(** In the sample worlds a source into which a keyword spills is refused
    by the compiler; no statement below runs such a source in them. *)
Definition refused : Outcome :=
  {| answer := (None, Some sample_syntax_error); asked := [] |}.

Definition sample_rect_fault : Py.exn :=
  Py.Exn "ValueError" "depythonifying 'double', got 'str'".

(** Zoom runs as "zoom.us" and its meeting menu holds [items]. *)
Definition meeting (items : list string) : Env :=
  {| bridge_fault := None;
     syntax_error := sample_syntax_error;
     events_fault := None;
     process_exists := fun name => String.eqb name "zoom.us";
     menu_item_names := fun _ => inr items;
     spilled_script := fun _ _ => refused;
     rect_fault := sample_rect_fault |}.



(** The monitor with the two keywords set, before its first poll. *)
Definition configured (A B : string) : App :=
  with_config (with_unmuted_keyword B (with_muted_keyword A defaults))
    (boot fs_writable).

(** The monitor once [main] has started it, in a meeting with the microphone
    on. *)
Definition started : App :=
  snd (main (meeting ["オーディオのミュート"; "ビデオの停止"]) (boot fs_writable)).

(** A settings record a user may have arrived at. *)
Definition sample_settings : Config :=
  {| window_x := Py.Float "1180.0";
     window_y := Py.Float "640.5";
     icon_size := Py.Int 150;
     muted_keyword := Py.Str "Unmute Audio";
     unmuted_keyword := Py.Str "Mute Audio";
     check_interval := Py.Int 500 |}.

(** A file system whose settings directory cannot be created, with an older
    settings file in it. *)
Definition fs_read_only : FS :=
  {| file := Holds (DocObject (<["icon_size" := Py.Int 300]> ∅));
     makedirs_fault := Some (Py.Exn "PermissionError" "[Errno 13] Permission denied");
     open_fault := None |}.

(** A writable file system with a settings file written by hand: an icon
    size, and a field the program does not know. *)
Definition fs_hand_edited : FS :=
  {| file := Holds (DocObject (<["theme" := Py.Str "dark"]>
                               (<["icon_size" := Py.Int 300]> ∅)));
     makedirs_fault := None;
     open_fault := None |}.

(** A writable file system with a settings file whose icon size is a
    text. *)
Definition fs_icon_size_text : FS :=
  {| file := Holds (DocObject (<["icon_size" := Py.Str "big"]> ∅));
     makedirs_fault := None;
     open_fault := None |}.

(** All icon files in place and readable. *)
Definition icons_present : Icons :=
  {| icon_exists := fun _ => true;
     image_loads := fun _ => true;
     size_error := Py.Exn "ValueError" "depythonifying 'double', got 'str'" |}.

(** The view as [setupWindow] leaves it for an icon size of 100. *)
Definition fresh_view : View :=
  {| drag_start := None; image := None;
     window_width := Py.Int 140; window_height := Py.Int 140;
     image_view_width := Py.Int 120; image_view_height := Py.Int 120 |}.

(** The text [Mute "Audio"]. *)
Definition quoted_keyword : string :=
  "Mute " ++ String Py.dquote ("Audio" ++ String Py.dquote EmptyString).

(** The text [Audio\new], backslash and all. *)
Definition backslash_keyword : string := "Audio\new".

(** * Properties *)

(** ** The statement monad *)

#[local] Arguments String.append !s1 s2 : simpl nomatch.

Ltac unfold_m :=
  cbv beta iota delta
    [bind ret raise try_except get modify print set_last_error
     set_window_x set_window_y set_icon_size set_muted_keyword
     set_unmuted_keyword set_check_interval
     os_path_exists json_load dict_get os_makedirs json_dump].

(** ** The settings store *)

Section SettingsFacts.

Lemma fields_of_to_dict (c : Config) : fields_of (to_dict c) = c.
Proof.
  destruct c as [wx wy isz mk uk ci].
  unfold fields_of, to_dict; simpl.
  by simplify_map_eq.
Qed.

(** [load] on a file that holds a JSON object: every field is read, with
    its fallback, and nothing is printed. *)
Lemma load_object (a : App) (data : gmap string Py.value) :
  file (fs a) = Holds (DocObject data) ->
  load a = (Val tt, with_config (fields_of data) a).
Proof.
  intros Hf. unfold load. unfold_m. rewrite Hf. simpl. rewrite Hf.
  reflexivity.
Qed.

(** [load] without a file: nothing happens. *)
Lemma load_missing (a : App) : file (fs a) = Missing -> load a = (Val tt, a).
Proof. intros Hf. unfold load. unfold_m. rewrite Hf. reflexivity. Qed.

(** [load] on a file that cannot be opened or parsed: the exception is
    printed and no field is assigned. *)
Lemma load_unreadable (a : App) (e : Py.exn) :
  file (fs a) = Unreadable e \/ file (fs a) = Malformed e ->
  load a = (Val tt, with_stdout (stdout a ++ ["Failed to load config: " ++ Py.message e]) a).
Proof.
  intros [Hf | Hf]; unfold load; unfold_m; rewrite Hf; simpl; rewrite Hf;
    reflexivity.
Qed.

(** [load] on a JSON text that is not an object: the first [data.get] raises,
    so again no field is assigned. *)
Lemma load_not_an_object (a : App) (ty : string) :
  file (fs a) = Holds (DocOther ty) ->
  load a = (Val tt,
            with_stdout
              (stdout a ++ ["Failed to load config: '" ++ ty
                            ++ "' object has no attribute 'get'"]) a).
Proof.
  intros Hf. unfold load. unfold_m. rewrite Hf. simpl. rewrite Hf.
  reflexivity.
Qed.

(** [save] when the directory and the file can be written. *)
Lemma save_written (a : App) :
  makedirs_fault (fs a) = None -> open_fault (fs a) = None ->
  save a = (Val tt,
            with_fs {| file := Holds (DocObject (to_dict (config a)));
                       makedirs_fault := None; open_fault := None |} a).
Proof.
  intros Hm Ho. unfold save. unfold_m. rewrite Hm. simpl. rewrite Ho, Hm.
  reflexivity.
Qed.

(** [save] never raises, and whatever happens it touches nothing but the
    file system and standard output. *)
Lemma save_frame (a : App) :
  exists f o, save a = (Val tt, with_stdout o (with_fs f a)).
Proof.
  unfold save. unfold_m.
  destruct (makedirs_fault (fs a)) as [e|] eqn:Hm; simpl.
  - exists (fs a), (stdout a ++ [("Failed to save config: " ++ Py.message e)%string])%list.
    by destruct a.
  - destruct (open_fault (fs a)) as [e|] eqn:Ho; simpl.
    + exists (fs a), (stdout a ++ [("Failed to save config: " ++ Py.message e)%string])%list.
      by destruct a.
    + eexists _, (stdout a). reflexivity.
Qed.

(** C6.  Configuration round trip: when the settings file can be written,
    saving a settings record (window position, icon size, the two keywords,
    check interval) and loading it again, into an existing [Config] with any
    field values or into a fresh [Config()], gives back every field as it was
    saved. *)
Theorem save_load_roundtrip (c c0 : Config) (a : App) :
  makedirs_fault (fs a) = None ->
  open_fault (fs a) = None ->
  exists a1,
    save (with_config c a) = (Val tt, a1)
    /\ (exists a2, load (with_config c0 a1) = (Val tt, a2) /\ config a2 = c)
    /\ (exists a3, Config_init a1 = (Val tt, a3) /\ config a3 = c).
Proof.
  intros Hm Ho. eexists. split; [by apply save_written |].
  split; eexists.
  - split; [by apply load_object |]. simpl. apply fields_of_to_dict.
  - unfold Config_init, bind, modify. split; [by apply load_object |].
    simpl. apply fields_of_to_dict.
Qed.


Lemma save_keeps_config (c : Config) (a : App) :
  exists a1, save (with_config c a) = (Val tt, a1) /\ config a1 = c.
Proof. destruct (save_frame (with_config c a)) as (f & o & ->). eauto. Qed.

Lemma editors_dismissed (response : Z) (text : string) (a : App) :
  response <> NSAlertFirstButtonReturn \/ text = EmptyString ->
  setMutedKeyword_ response text a = (Val tt, a)
  /\ setUnmutedKeyword_ response text a = (Val tt, a).
Proof.
  unfold setMutedKeyword_, setUnmutedKeyword_.
  intros [Hr | ->].
  - apply Z.eqb_neq in Hr. by rewrite Hr.
  - by destruct (response =? NSAlertFirstButtonReturn)%Z.
Qed.

Lemma editors_confirmed (response : Z) (text : string) (a : App) :
  response = NSAlertFirstButtonReturn -> text <> EmptyString ->
  setMutedKeyword_ response text a
    = save (with_config (with_muted_keyword text (config a)) a)
  /\ setUnmutedKeyword_ response text a
    = save (with_config (with_unmuted_keyword text (config a)) a).
Proof.
  unfold setMutedKeyword_, setUnmutedKeyword_.
  intros -> Ht. rewrite Z.eqb_refl.
  destruct text as [|ch text]; [done |]. done.
Qed.

Lemma editors_cases (response : Z) (text : string) :
  (response <> NSAlertFirstButtonReturn \/ text = EmptyString)
  \/ (response = NSAlertFirstButtonReturn /\ text <> EmptyString).
Proof.
  destruct (Z.eq_dec response NSAlertFirstButtonReturn); destruct text;
    first [ by right | left; by eauto ].
Qed.

(** C9.  The two keyword editors.  When the dialog is cancelled, or confirmed
    with an empty text, the whole state (configuration and settings file
    included) is left as it was.  When it is confirmed with a non-empty text,
    that text becomes the keyword, every other field keeps its value, and the
    configuration is saved; with a writable file the file then holds it.  So
    an edit that ends with an empty keyword has changed nothing. *)
Theorem keyword_edit_frame (response : Z) (text : string) (a : App) :
  (response <> NSAlertFirstButtonReturn \/ text = EmptyString ->
   setMutedKeyword_ response text a = (Val tt, a)
   /\ setUnmutedKeyword_ response text a = (Val tt, a))
  /\ (response = NSAlertFirstButtonReturn -> text <> EmptyString ->
      let muted := with_muted_keyword text (config a) in
      let unmuted := with_unmuted_keyword text (config a) in
      setMutedKeyword_ response text a = save (with_config muted a)
      /\ setUnmutedKeyword_ response text a = save (with_config unmuted a)
      /\ (exists a1, setMutedKeyword_ response text a = (Val tt, a1)
                     /\ config a1 = muted)
      /\ (exists a1, setUnmutedKeyword_ response text a = (Val tt, a1)
                     /\ config a1 = unmuted)
      /\ (makedirs_fault (fs a) = None -> open_fault (fs a) = None ->
          (forall a1, setMutedKeyword_ response text a = (Val tt, a1) ->
                      file (fs a1) = Holds (DocObject (to_dict muted)))
          /\ (forall a1, setUnmutedKeyword_ response text a = (Val tt, a1) ->
                         file (fs a1) = Holds (DocObject (to_dict unmuted)))))
  /\ (forall a1, setMutedKeyword_ response text a = (Val tt, a1) ->
                 muted_keyword (config a1) = Py.Str EmptyString -> a1 = a)
  /\ (forall a1, setUnmutedKeyword_ response text a = (Val tt, a1) ->
                 unmuted_keyword (config a1) = Py.Str EmptyString -> a1 = a).
Proof.
  split; [apply editors_dismissed |].
  split.
  - intros Hr Ht muted unmuted.
    destruct (editors_confirmed response text a Hr Ht) as [Hm Hu].
    repeat split; try assumption.
    + rewrite Hm. apply save_keeps_config.
    + rewrite Hu. apply save_keeps_config.
    + intros a1. rewrite Hm, save_written by assumption. by intros [= <-].
    + intros a1. rewrite Hu, save_written by assumption. by intros [= <-].
  - destruct (editors_cases response text) as [Hd | [Hr Ht]].
    + destruct (editors_dismissed response text a Hd) as [-> ->].
      split; intros a1 [= <-]; reflexivity.
    + destruct (editors_confirmed response text a Hr Ht) as [-> ->].
      split; intros a1 Hs Hk.
      * destruct (save_keeps_config (with_muted_keyword text (config a)) a)
          as (a2 & Hs2 & Hc2).
        rewrite Hs2 in Hs. injection Hs as <-. rewrite Hc2 in Hk.
        simpl in Hk. congruence.
      * destruct (save_keeps_config (with_unmuted_keyword text (config a)) a)
          as (a2 & Hs2 & Hc2).
        rewrite Hs2 in Hs. injection Hs as <-. rewrite Hc2 in Hk.
        simpl in Hk. congruence.
Qed.

End SettingsFacts.

(** ** The generated script *)

Section ScriptFacts.
Context `{TextComparison}.

Lemma string_app_assoc (s t u : string) : (s ++ t) ++ u = s ++ t ++ u.
Proof. induction s as [|c s IH]; simpl; congruence. Qed.

Lemma string_app_nil (s : string) : s ++ EmptyString = s.
Proof. induction s as [|c s IH]; simpl; congruence. Qed.

(** A plain text between the quotes is a literal for itself. *)
Lemma read_literal_plain (s : string) : plain s = true -> read_literal s = Some s.
Proof.
  induction s as [|c r IH]; cbn [plain read_literal]; [done |].
  intros Hp. apply andb_true_iff in Hp as [Hp Hr].
  apply andb_true_iff in Hp as [Hq Hb].
  apply negb_true_iff in Hq, Hb. by rewrite Hq, Hb, (IH Hr).
Qed.

(** The first loop returns as soon as an item is the keyword. *)
Lemma repeat_returns_In (keyword : string) (L : list string) :
  In keyword L -> repeat_returns keyword L = true.
Proof.
  induction L as [|x L IH]; cbn [repeat_returns In]; [done |].
  intros [-> | Hin].
  - by rewrite is_equal_to_refl.
  - destruct (is_equal_to x keyword); [done | by apply IH].
Qed.

Lemma repeat_returns_false (keyword : string) (L : list string) :
  repeat_returns keyword L = false
  <-> (forall x, In x L -> is_equal_to x keyword = false).
Proof.
  induction L as [|x L IH]; cbn [repeat_returns In]; [by split |].
  destruct (is_equal_to x keyword) eqn:Hx; split.
  - done.
  - intros Hall. rewrite <- Hx. apply Hall. by left.
  - intros Hr y [<- | Hy]; [done |]. by apply IH.
  - intros Hall. apply IH. intros y Hy. apply Hall. by right.
Qed.

(** The three outcomes of the scan. *)
Lemma scan_muted (mutedKeyword unmutedKeyword : string) (L : list string) :
  In mutedKeyword L ->
  tell_menu_bar_item mutedKeyword unmutedKeyword L = "muted".
Proof. intros Hin. unfold tell_menu_bar_item. by rewrite repeat_returns_In. Qed.

Lemma scan_unmuted (mutedKeyword unmutedKeyword : string) (L : list string) :
  (forall x, In x L -> is_equal_to x mutedKeyword = false) ->
  In unmutedKeyword L ->
  tell_menu_bar_item mutedKeyword unmutedKeyword L = "unmuted".
Proof.
  intros Hno Hin. unfold tell_menu_bar_item.
  apply repeat_returns_false in Hno. by rewrite Hno, repeat_returns_In.
Qed.

Lemma scan_unknown (mutedKeyword unmutedKeyword : string) (L : list string) :
  (forall x, In x L -> is_equal_to x mutedKeyword = false) ->
  (forall x, In x L -> is_equal_to x unmutedKeyword = false) ->
  tell_menu_bar_item mutedKeyword unmutedKeyword L = "unknown:" ++ item_list "" L.
Proof.
  intros Hm Hu. unfold tell_menu_bar_item.
  apply repeat_returns_false in Hm, Hu. by rewrite Hm, Hu.
Qed.

(** The dump is every item followed by the separator. *)
Lemma item_list_app (itemList : string) (L : list string) :
  item_list itemList L = itemList ++ item_list "" L.
Proof.
  revert itemList. induction L as [|x L IH]; intros itemList; cbn [item_list].
  - by rewrite string_app_nil.
  - rewrite IH, (IH ("" ++ x ++ "|")). cbn [append].
    by rewrite !string_app_assoc.
Qed.

Lemma item_list_cons (x : string) (L : list string) :
  item_list "" (x :: L) = x ++ "|" ++ item_list "" L.
Proof.
  cbn [item_list]. rewrite item_list_app. cbn [append].
  by rewrite string_app_assoc.
Qed.

(** Splitting at the separator gives back an item without one. *)
Lemma split_pipe_free (x rest : string) :
  pipe_free x = true ->
  Py.split Py.pipe (x ++ "|" ++ rest) = x :: Py.split Py.pipe rest.
Proof.
  induction x as [|c x IH]; cbn [pipe_free append Py.split].
  - intros _. reflexivity.
  - intros Hp. apply andb_true_iff in Hp as [Hc Hx].
    apply negb_true_iff in Hc. rewrite Hc.
    change (String "|" rest) with ("|" ++ rest). by rewrite (IH Hx).
Qed.

Lemma split_item_list (L : list string) :
  (forall x, In x L -> pipe_free x = true) ->
  Py.split Py.pipe (item_list "" L) = (L ++ [EmptyString])%list.
Proof.
  induction L as [|x L IH]; intros Hp; [reflexivity |].
  rewrite item_list_cons, split_pipe_free by (apply Hp; by left).
  rewrite IH; [reflexivity |]. intros y Hy. apply Hp. by right.
Qed.

(** The listing loop adds one line per non-empty piece. *)
Lemma list_items_lines (error_details : string) (pieces : list string) :
  list_items error_details pieces
  = error_details ++ item_lines (List.filter Py.truthy pieces).
Proof.
  revert error_details.
  induction pieces as [|x pieces IH]; intros error_details;
    cbn [list_items List.filter item_lines].
  - by rewrite string_app_nil.
  - rewrite IH. destruct (Py.truthy x); cbn [item_lines]; [| done].
    by rewrite !string_app_assoc.
Qed.

Lemma list_items_truthy (error_details : string) (pieces : list string) :
  Py.truthy error_details = true ->
  Py.truthy (list_items error_details pieces) = true.
Proof.
  rewrite list_items_lines. by destruct error_details.
Qed.

End ScriptFacts.

(** ** The prober *)

Section ProberFacts.
Context `{TextComparison}.

(** The classification always returns, writes nothing but [last_error], and
    leaves an error message exactly when it answers [None]. *)
Lemma classify_result_returns (r : option (option string) * option ErrorInfo) (a : App) :
  exists v e,
    classify_result r a = (Val v, with_last_error e a)
    /\ match v with
       | Some _ => e = None
       | None => exists msg, e = Some msg /\ Py.truthy msg = true
       end.
Proof.
  destruct r as [result [error |]]; unfold classify_result; cbn [fst snd].
  - eexists None, _. split; [reflexivity |]. eexists. split; reflexivity.
  - set (status := match result with
                   | Some (Some text) => text
                   | Some None => "None"
                   | None => "unknown"
                   end).
    destruct (String.eqb status "muted");
      [eexists (Some true), None; split; reflexivity |].
    destruct (String.eqb status "unmuted");
      [eexists (Some false), None; split; reflexivity |].
    unfold bind, get.
    destruct (String.eqb status "not_running");
      [eexists None, _; split; [reflexivity |]; eexists; split; reflexivity |].
    destruct (Py.startswith "unknown:" status).
    { eexists None, _. split; [reflexivity |]. eexists. split; [reflexivity |].
      by apply list_items_truthy. }
    destruct (Py.startswith "error:" status);
      [eexists None, _; split; [reflexivity |]; eexists; split; reflexivity |].
    destruct (String.eqb status "unknown");
      eexists None, _; (split; [reflexivity |]); eexists; split; reflexivity.
Qed.


Lemma classify_muted (a : App) :
  classify_result (Some (Some "muted"), None) a = (Val (Some true), with_last_error None a).
Proof. reflexivity. Qed.

Lemma classify_unmuted (a : App) :
  classify_result (Some (Some "unmuted"), None) a
  = (Val (Some false), with_last_error None a).
Proof. reflexivity. Qed.


Lemma classify_unknown_dump (itemList : string) (a : App) :
  classify_result (Some (Some ("unknown:" ++ itemList)), None) a
  = (Val None,
     with_last_error
       (Some (list_items
                (keyword_not_found (config a) ++ Py.nl ++ Py.nl
                 ++ "【実際のメニュー項目】" ++ Py.nl)
                (Py.split Py.pipe itemList))) a).
Proof. reflexivity. Qed.

Lemma classify_menu_error (errMsg : string) (a : App) :
  classify_result (Some (Some ("error:" ++ errMsg)), None) a
  = (Val None, with_last_error (Some (applescript_error errMsg)) a).
Proof. reflexivity. Qed.

(** [checkMuteStatus] is the classification of what the scripting call
    answers, or the record of what it raises. *)
Lemma checkMuteStatus_unfold (env : Env) (a : App) :
  checkMuteStatus env a
  = match executeAndReturnError_ env (script_source (config a)) a with
    | (Val r, a1) => classify_result r a1
    | (Raised e, a1) => (Val None, with_last_error (Some (unexpected_error e)) a1)
    end.
Proof.
  unfold checkMuteStatus, bind, try_except, get.
  destruct (executeAndReturnError_ env (script_source (config a)) a) as [[r | e] a1];
    [| reflexivity].
  destruct (classify_result_returns r a1) as (v & e & -> & _). reflexivity.
Qed.


Lemma compile_literal (c : Config) (mk uk : string) :
  read_literal (Py.str (muted_keyword c)) = Some mk ->
  read_literal (Py.str (unmuted_keyword c)) = Some uk ->
  compile (script_source c) = Runs mk uk.
Proof. intros Hmk Huk. unfold compile, script_source; cbn. by rewrite Hmk, Huk. Qed.

Lemma with_queries_nil (a : App) : with_queries (queries a ++ [])%list a = a.
Proof. rewrite app_nil_r. by destruct a. Qed.


Lemma execute_answers (env : Env) (c : Config) (a : App) (mk uk : string) :
  answers env ->
  read_literal (Py.str (muted_keyword c)) = Some mk ->
  read_literal (Py.str (unmuted_keyword c)) = Some uk ->
  executeAndReturnError_ env (script_source c) a
  = match zoomProcName env with
    | None =>
        (Val (Some (Some "not_running"), None),
         with_queries (queries a ++ lookup_queries env)%list a)
    | Some p =>
        (Val (Some (Some match menu_item_names env p with
                         | inl errMsg => "error:" ++ errMsg
                         | inr L => tell_menu_bar_item mk uk L
                         end), None),
         with_queries (queries a ++ lookup_queries env ++ [MenuItemNames p])%list a)
    end.
Proof.
  intros [Hb He] Hmk Huk.
  unfold executeAndReturnError_.
  rewrite Hb, (compile_literal c mk uk) by done.
  unfold tell_System_Events, tell_process, zoomProcName, lookup_queries,
    bind, ask, modify, ret.
  rewrite He.
  destruct (process_exists env "zoom.us"); cbn.
  - rewrite <- app_assoc. by destruct (menu_item_names env "zoom.us").
  - destruct (process_exists env "Zoom"); cbn.
    + rewrite <- !app_assoc. by destruct (menu_item_names env "Zoom").
    + by rewrite <- app_assoc.
Qed.

(** Whatever happens, the call only adds to the queries; and unless a
    keyword spills, it does not ask for the menu of a process it has not
    found. *)
Lemma execute_frame (env : Env) (script : Script) (a : App) :
  exists res qs,
    executeAndReturnError_ env script a = (res, with_queries (queries a ++ qs)%list a)
    /\ (compile script <> Spills -> zoomProcName env = None ->
        existsb reads_menu qs = false).
Proof.
  unfold executeAndReturnError_.
  destruct (bridge_fault env) as [e |].
  { exists (Raised e), []. by rewrite with_queries_nil. }
  destruct (compile script) as [mk uk | |].
  2:{ eexists _, []. by rewrite with_queries_nil. }
  2:{ unfold bind, modify, ret. eexists _, _. by split. }
  unfold tell_System_Events, tell_process, zoomProcName, bind, ask, modify, ret.
  destruct (events_fault env) as [err |]; cbn.
  { by eexists _, [_]. }
  destruct (process_exists env "zoom.us"); cbn.
  { rewrite <- app_assoc. destruct (menu_item_names env "zoom.us");
      by eexists _, _. }
  destruct (process_exists env "Zoom"); cbn.
  { rewrite <- !app_assoc. destruct (menu_item_names env "Zoom");
      by eexists _, _. }
  rewrite <- app_assoc. by eexists _, _.
Qed.


(** ** [checkMuteStatus], situation by situation *)






Lemma check_scan (env : Env) (a : App) (mk uk : string) (L : list string) :
  answers env ->
  read_literal (Py.str (muted_keyword (config a))) = Some mk ->
  read_literal (Py.str (unmuted_keyword (config a))) = Some uk ->
  menu_read env L ->
  exists qs,
    checkMuteStatus env a
    = classify_result (Some (Some (tell_menu_bar_item mk uk L)), None)
        (with_queries (queries a ++ qs)%list a).
Proof.
  intros Ha Hmk Huk (p & Hp & Hm).
  rewrite checkMuteStatus_unfold, (execute_answers _ _ _ mk uk) by done.
  rewrite Hp, Hm. eauto.
Qed.

(** The keyword scan as the poll reports it, for keywords as the script
    reads them. *)
Lemma check_muted (env : Env) (a : App) (mk uk : string) (L : list string) :
  answers env ->
  read_literal (Py.str (muted_keyword (config a))) = Some mk ->
  read_literal (Py.str (unmuted_keyword (config a))) = Some uk ->
  menu_read env L ->
  In mk L ->
  exists a', checkMuteStatus env a = (Val (Some true), a') /\ last_error a' = None.
Proof.
  intros Ha Hmk Huk Hr Hin.
  destruct (check_scan env a mk uk L) as (qs & ->); try done.
  rewrite scan_muted by done. rewrite classify_muted. eauto.
Qed.

Lemma check_unmuted (env : Env) (a : App) (mk uk : string) (L : list string) :
  answers env ->
  read_literal (Py.str (muted_keyword (config a))) = Some mk ->
  read_literal (Py.str (unmuted_keyword (config a))) = Some uk ->
  menu_read env L ->
  (forall x, In x L -> is_equal_to x mk = false) ->
  In uk L ->
  exists a', checkMuteStatus env a = (Val (Some false), a') /\ last_error a' = None.
Proof.
  intros Ha Hmk Huk Hr Hno Hin.
  destruct (check_scan env a mk uk L) as (qs & ->); try done.
  rewrite scan_unmuted by done. rewrite classify_unmuted. eauto.
Qed.

Lemma check_keyword_not_found (env : Env) (a : App) (mk uk : string) (L : list string) :
  answers env ->
  read_literal (Py.str (muted_keyword (config a))) = Some mk ->
  read_literal (Py.str (unmuted_keyword (config a))) = Some uk ->
  menu_read env L ->
  (forall x, In x L -> is_equal_to x mk = false) ->
  (forall x, In x L -> is_equal_to x uk = false) ->
  exists a',
    checkMuteStatus env a = (Val None, a')
    /\ last_error a'
       = Some (list_items
                 (keyword_not_found (config a) ++ Py.nl ++ Py.nl
                  ++ "【実際のメニュー項目】" ++ Py.nl)
                 (Py.split Py.pipe (item_list "" L))).
Proof.
  intros Ha Hmk Huk Hr Hm Hu.
  destruct (check_scan env a mk uk L) as (qs & ->); try done.
  rewrite scan_unknown by done. rewrite classify_unknown_dump. eauto.
Qed.

(** When no item holds the separator, the detail lists the items that have
    a name, one per line, in the order of the menu. *)
Lemma check_lists_items (env : Env) (a : App) (mk uk : string) (L : list string) :
  answers env ->
  read_literal (Py.str (muted_keyword (config a))) = Some mk ->
  read_literal (Py.str (unmuted_keyword (config a))) = Some uk ->
  menu_read env L ->
  (forall x, In x L -> is_equal_to x mk = false) ->
  (forall x, In x L -> is_equal_to x uk = false) ->
  (forall x, In x L -> pipe_free x = true) ->
  exists a',
    checkMuteStatus env a = (Val None, a')
    /\ last_error a'
       = Some (keyword_not_found (config a) ++ Py.nl ++ Py.nl
               ++ "【実際のメニュー項目】" ++ Py.nl
               ++ item_lines (List.filter Py.truthy L)).
Proof.
  intros Ha Hmk Huk Hr Hm Hu Hp.
  destruct (check_keyword_not_found env a mk uk L) as (a' & Hc & He); try done.
  exists a'. split; [done |]. rewrite He, split_item_list by done.
  rewrite list_items_lines, List.filter_app. cbn [List.filter Py.truthy].
  rewrite app_nil_r. by rewrite !string_app_assoc.
Qed.

(** ** The keyword scan for keywords that need no escaping

    A keyword without a double quote or a backslash reaches the script as it
    is configured; for such keywords the poll does what the dialogs
    announce. *)

Lemma plain_keywords_compile (c : Config) (A B : string) :
  muted_keyword c = Py.Str A -> unmuted_keyword c = Py.Str B ->
  plain A = true -> plain B = true ->
  read_literal (Py.str (muted_keyword c)) = Some A
  /\ read_literal (Py.str (unmuted_keyword c)) = Some B.
Proof.
  intros -> -> HA HB. cbn [Py.str]. by rewrite !read_literal_plain.
Qed.

(** X19.  For keywords without a double quote or a backslash: an item that
    is the muted keyword makes the poll answer [True], wherever it stands
    and whatever else the menu holds, the unmuted keyword included. *)
Lemma plain_muted_first (env : Env) (a : App) (A B : string) (L : list string) :
  answers env ->
  muted_keyword (config a) = Py.Str A -> unmuted_keyword (config a) = Py.Str B ->
  plain A = true -> plain B = true ->
  menu_read env L ->
  In A L ->
  exists a', checkMuteStatus env a = (Val (Some true), a') /\ last_error a' = None.
Proof.
  intros Ha HA HB HpA HpB Hr Hin.
  destruct (plain_keywords_compile _ A B HA HB HpA HpB) as [Hmk Huk].
  by apply (check_muted env a A B L).
Qed.

(** X20.  For keywords without a double quote or a backslash: with no item
    equal to the muted keyword, an item that is the unmuted keyword makes
    the poll answer [False]. *)
Lemma plain_unmuted_second (env : Env) (a : App) (A B : string) (L : list string) :
  answers env ->
  muted_keyword (config a) = Py.Str A -> unmuted_keyword (config a) = Py.Str B ->
  plain A = true -> plain B = true ->
  menu_read env L ->
  (forall x, In x L -> is_equal_to x A = false) ->
  In B L ->
  exists a', checkMuteStatus env a = (Val (Some false), a') /\ last_error a' = None.
Proof.
  intros Ha HA HB HpA HpB Hr Hno Hin.
  destruct (plain_keywords_compile _ A B HA HB HpA HpB) as [Hmk Huk].
  by apply (check_unmuted env a A B L).
Qed.

(** X21.  For keywords without a double quote or a backslash: with no item
    equal to either keyword and no separator in any item, the poll answers
    [None] and its detail lists every item that has a name, one per line, in
    the order of the menu. *)
Lemma plain_neither_listed (env : Env) (a : App) (A B : string) (L : list string) :
  answers env ->
  muted_keyword (config a) = Py.Str A -> unmuted_keyword (config a) = Py.Str B ->
  plain A = true -> plain B = true ->
  menu_read env L ->
  (forall x, In x L -> is_equal_to x A = false) ->
  (forall x, In x L -> is_equal_to x B = false) ->
  (forall x, In x L -> pipe_free x = true) ->
  exists a',
    checkMuteStatus env a = (Val None, a')
    /\ last_error a'
       = Some (keyword_not_found (config a) ++ Py.nl ++ Py.nl
               ++ "【実際のメニュー項目】" ++ Py.nl
               ++ item_lines (List.filter Py.truthy L)).
Proof.
  intros Ha HA HB HpA HpB Hr HnA HnB Hp.
  destruct (plain_keywords_compile _ A B HA HB HpA HpB) as [Hmk Huk].
  by apply (check_lists_items env a A B L).
Qed.





(** C5.  After every poll the error slot holds a non-empty message exactly
    when the answer is [None]; after an answer of [True] or [False] the slot
    is [None]. *)
Theorem last_error_iff_unknown (env : Env) (a : App) :
  exists v a',
    checkMuteStatus env a = (Val v, a')
    /\ (v = None <-> exists msg, last_error a' = Some msg /\ Py.truthy msg = true)
    /\ (forall b, v = Some b -> last_error a' = None).
Proof.
  rewrite checkMuteStatus_unfold.
  destruct (executeAndReturnError_ env (script_source (config a)) a) as [[r | e] a1].
  - destruct (classify_result_returns r a1) as (v & e & -> & Hv).
    exists v, (with_last_error e a1). split; [done |].
    destruct v as [b |]; cbn [last_error with_last_error].
    + subst e. split; [| done]. split; [done |]. by intros (msg & ? & _).
    + destruct Hv as (msg & -> & Ht). split; [| done]. split; eauto.
  - eexists None, _. split; [done |]. split; [| done].
    split; [| done]. intros _. eexists. split; reflexivity.
Qed.

(** C10.  The classification is total over the status texts: every text is
    answered with [True], [False] or [None]; [True] exactly for "muted",
    [False] exactly for "unmuted", [None] for every other text; and a text
    that is none of the four named statuses and has neither named prefix is
    recorded verbatim after "不明なステータス: ".  It is this classification
    that [checkMuteStatus] applies to the text the script returns. *)
Theorem classification_total (status : string) (a : App) :
  (exists v e,
     classify_result (Some (Some status), None) a = (Val v, with_last_error e a)
     /\ (v = Some true <-> status = "muted")
     /\ (v = Some false <-> status = "unmuted")
     /\ (v = None <-> status <> "muted" /\ status <> "unmuted")
     /\ (recognised status = false ->
         v = None /\ e = Some ("不明なステータス: " ++ status)))
  /\ (forall env a0 a1,
      executeAndReturnError_ env (script_source (config a0)) a0
      = (Val (Some (Some status), None), a1) ->
      checkMuteStatus env a0 = classify_result (Some (Some status), None) a1).
Proof.
  split; [| intros env a0 a1 Hex; by rewrite checkMuteStatus_unfold, Hex].
  unfold classify_result; cbn [fst snd].
  destruct (String.eqb_spec status "muted") as [-> | Hm].
  { eexists (Some true), None. split; [reflexivity |].
    repeat split; try done. by intros [? _]. }
  destruct (String.eqb_spec status "unmuted") as [-> | Hu].
  { eexists (Some false), None. split; [reflexivity |].
    repeat split; try done. by intros [_ ?]. }
  unfold bind, get.
  destruct (String.eqb status "not_running") eqn:E1;
    [| destruct (Py.startswith "unknown:" status) eqn:E2;
       [| destruct (Py.startswith "error:" status) eqn:E3;
          [| destruct (String.eqb status "unknown") eqn:E4 ] ] ].
  all: eexists None, _; split; [reflexivity |].
  all: split; [done |]; split; [done |]; split; [done |].
  all: intros Hf; try done; exfalso; unfold recognised in Hf.
  all: rewrite ?E1, ?E2, ?E3, ?E4 in Hf.
  all: repeat (rewrite ?orb_true_r in Hf; simpl in Hf); discriminate.
Qed.

End ProberFacts.

(** ** The scheduler *)

Section SchedulerFacts.
Context `{TextComparison}.

(** A valid timer of the run loop shows among the live ones. *)
Lemma live_lookup (l : list Timer) (t : nat) (tm : Timer) :
  l !! t = Some tm -> valid tm = true -> In tm (List.filter valid l).
Proof.
  intros Hl Hv. apply filter_In. split; [| done].
  apply list_elem_of_In. by eapply list_elem_of_lookup_2.
Qed.

(** Invalidating the only live timer leaves none. *)
Lemma invalidate_sole (l : list Timer) (t : nat) (tm : Timer) :
  l !! t = Some tm -> valid tm = true -> List.filter valid l = [tm] ->
  List.filter valid (alter invalidated t l) = [].
Proof.
  revert t. induction l as [|x l IH]; intros t Hl Hv Hf; [done |].
  destruct t as [|t]; cbn in Hl |- *.
  - injection Hl as ->. cbn in Hf. rewrite Hv in Hf. by injection Hf.
  - cbn in Hf. destruct (valid x) eqn:Hx.
    + injection Hf as -> Hnil.
      pose proof (live_lookup l t tm Hl Hv) as Hin. rewrite Hnil in Hin.
      destruct Hin.
    + by apply (IH t).
Qed.

(** What each statement leaves alone. *)
Lemma load_frame (a : App) :
  exists c o, load a = (Val tt, with_stdout o (with_config c a)).
Proof.
  destruct (file (fs a)) as [| e | e | [data | ty]] eqn:Hf.
  - rewrite load_missing by done. exists (config a), (stdout a). by destruct a.
  - rewrite (load_unreadable a e) by eauto. eexists (config a), _. by destruct a.
  - rewrite (load_unreadable a e) by eauto. eexists (config a), _. by destruct a.
  - rewrite (load_object a data) by done. eexists _, (stdout a). reflexivity.
  - rewrite (load_not_an_object a ty) by done. eexists (config a), _. by destruct a.
Qed.

Lemma check_frame (env : Env) (a : App) :
  exists v e q,
    checkMuteStatus env a = (Val v, with_last_error e (with_queries q a)).
Proof.
  rewrite checkMuteStatus_unfold.
  destruct (execute_frame env (script_source (config a)) a) as (res & qs & -> & _).
  destruct res as [r | e].
  - destruct (classify_result_returns r (with_queries (queries a ++ qs)%list a))
      as (v & e & -> & _). eauto.
  - eauto.
Qed.

Lemma updateStatus_frame (env : Env) (a : App) :
  exists e q, updateStatus_ env a = (Val tt, with_last_error e (with_queries q a)).
Proof.
  unfold updateStatus_, bind.
  destruct (check_frame env a) as (v & e & q & ->). eauto.
Qed.

(** The interval change, statement by statement. *)
Lemma interval_change_steps (a : App) (Y : Z) :
  single_timer a ->
  exists a1 a2 a' t t',
    (set_check_interval (Py.Int Y) ;; save) a = (Val tt, a1)
    /\ timer a = Some t
    /\ stop_timer a1 = (Val tt, a2)
    /\ run_loop a2 = alter invalidated t (run_loop a)
    /\ live_timers a2 = []
    /\ start_timer (Py.Int Y) a2 = (Val tt, a')
    /\ setCheckInterval_ Y a = (Val tt, a')
    /\ run_loop_log a' = (run_loop_log a ++ [run_loop a2; run_loop a'])%list
    /\ live_timers a' = [{| period_ms := Py.Int Y; valid := true |}]
    /\ timer a' = Some t'
    /\ run_loop a' !! t' = Some {| period_ms := Py.Int Y; valid := true |}
    /\ t <> t'
    /\ (exists old, run_loop a' !! t = Some old /\ valid old = false)
    /\ check_interval (config a') = Py.Int Y
    /\ window_fits (config a') = window_fits (config a).
Proof.
  intros (t & tm & Ht & Hl & Hv & _ & Hlive).
  set (c := {| window_x := window_x (config a); window_y := window_y (config a);
               icon_size := icon_size (config a);
               muted_keyword := muted_keyword (config a);
               unmuted_keyword := unmuted_keyword (config a);
               check_interval := Py.Int Y |}).
  destruct (save_frame (with_config c a)) as (f & o & Hsave).
  set (a1 := with_stdout o (with_fs f (with_config c a))).
  set (l2 := alter invalidated t (run_loop a)).
  exists a1, (with_run_loop l2 a1),
    (with_timer (Some (length l2))
       (with_run_loop (l2 ++ [{| period_ms := Py.Int Y; valid := true |}])%list
          (with_run_loop l2 a1))),
    t, (length l2).
  assert (Hlen : length l2 = length (run_loop a)) by apply length_alter.
  assert (Hlt : t < length (run_loop a)) by (by eapply lookup_lt_Some).
  assert (H2 : List.filter valid l2 = []) by (by eapply invalidate_sole).
  split_and!.
  - unfold bind, set_check_interval, modify. fold c. by rewrite Hsave.
  - done.
  - unfold stop_timer, bind, get, invalidate, modify. cbn. by rewrite Ht.
  - reflexivity.
  - done.
  - reflexivity.
  - unfold setCheckInterval_, bind, set_check_interval, modify. fold c.
    rewrite Hsave. fold a1.
    unfold stop_timer, bind, get, invalidate, modify. cbn. rewrite Ht.
    reflexivity.
  - cbn. by rewrite <- app_assoc.
  - unfold live_timers. cbn. by rewrite List.filter_app, H2.
  - reflexivity.
  - cbn. by rewrite lookup_app_r, Nat.sub_diag.
  - lia.
  - exists (invalidated tm). split; [| done]. cbn.
    rewrite lookup_app_l by lia. unfold l2.
    by rewrite list_lookup_alter_eq, Hl.
  - reflexivity.
  - reflexivity.
Qed.

(** [setupWindow] goes through exactly on the settings that fit, and
    changes nothing. *)
Lemma setupWindow_cases (env : Env) (a : App) :
  (window_fits (config a) = true /\ setupWindow env a = (Val tt, a))
  \/ (window_fits (config a) = false /\ exists e, setupWindow env a = (Raised e, a)).
Proof.
  unfold setupWindow, window_fits, bind, get, ret, raise.
  destruct (Py.numeric (icon_size (config a))); cbn [andb]; [| by eauto].
  destruct (is_not_None (window_x (config a)) && is_not_None (window_y (config a)));
    cbn [negb orb]; [| by eauto].
  destruct (Py.numeric (window_x (config a)) && Py.numeric (window_y (config a)));
    by eauto.
Qed.

(** What [main] leaves when it returns: one timer, scheduled by the one
    call the log shows, and settings the window could be set up with. *)
Lemma main_timers (fs0 : FS) (env : Env) (a : App) :
  main env (boot fs0) = (Val tt, a) ->
  single_timer a /\ run_loop_log a = [run_loop a] /\ window_fits (config a) = true.
Proof.
  unfold main, init, Config_init, startMonitoring, bind, set_last_error, modify.
  destruct (load_frame (with_config defaults (with_timer None (boot fs0))))
    as (c & o & ->).
  match goal with
  | |- context [setupWindow env ?s] =>
      destruct (setupWindow_cases env s) as [[Hw ->] | [_ [e ->]]]
  end; [| discriminate].
  unfold start_timer, scheduledTimer, bind, modify, get. cbn in Hw |- *.
  destruct (Py.numeric (check_interval c)); [| discriminate].
  match goal with
  | |- context [updateStatus_ env ?s] =>
      destruct (updateStatus_frame env s) as (e & q & ->)
  end.
  intros [= <-]. split; [| by split].
  eexists 0, _. by repeat split.
Qed.

Lemma main_single_timer (fs0 : FS) (env : Env) (a : App) :
  main env (boot fs0) = (Val tt, a) -> single_timer a.
Proof. intros Hm. by destruct (main_timers fs0 env a Hm). Qed.

(** A step of the run keeps the one live timer, logs only states with at
    most one live timer, and keeps settings the window fits. *)
Lemma handle_timers (ev : Event) (a a' : App) :
  single_timer a -> handle ev a = (Val tt, a') ->
  single_timer a'
  /\ (Forall at_most_one_live (run_loop_log a) ->
      Forall at_most_one_live (run_loop_log a'))
  /\ (window_fits (config a) = true -> window_fits (config a') = true).
Proof.
  intros Hs. destruct ev as [t env | tag | tag | r text | r text]; cbn [handle].
  - destruct (updateStatus_frame env a) as (e & q & ->). by intros [= <-].
  - unfold setIconSize_, bind, set_icon_size, modify.
    match goal with
    | |- context [save (with_config ?c a)] =>
        destruct (save_frame (with_config c a)) as (f & o & ->)
    end.
    intros [= <-]. split_and!; try done.
    unfold window_fits. cbn. intros Hw. by apply andb_true_iff in Hw as [_ ->].
  - destruct (interval_change_steps a tag Hs)
      as (a1 & a2 & a3 & t & t' & _ & _ & _ & _ & Hl2 & _ & -> & Hlog & Hl & Ht & Hr
          & _ & _ & Hc & Hw).
    intros [= <-]. split_and!.
    + eexists t', _. by repeat split.
    + intros Hall. rewrite Hlog. apply Forall_app. split; [done |].
      unfold live_timers in Hl2, Hl.
      constructor; [| constructor; [| constructor]]; unfold at_most_one_live;
        [rewrite Hl2 | rewrite Hl]; simpl; lia.
    + by rewrite Hw.
  - destruct (editors_cases r text) as [Hd | [Hr Ht]].
    + destruct (editors_dismissed r text a Hd) as [-> _]. by intros [= <-].
    + destruct (editors_confirmed r text a Hr Ht) as [-> _].
      destruct (save_frame (with_config (with_muted_keyword text (config a)) a))
        as (f & o & ->).
      by intros [= <-].
  - destruct (editors_cases r text) as [Hd | [Hr Ht]].
    + destruct (editors_dismissed r text a Hd) as [_ ->]. by intros [= <-].
    + destruct (editors_confirmed r text a Hr Ht) as [_ ->].
      destruct (save_frame (with_config (with_unmuted_keyword text (config a)) a))
        as (f & o & ->).
      by intros [= <-].
Qed.

Lemma handle_single_timer (ev : Event) (a a' : App) :
  single_timer a -> handle ev a = (Val tt, a') -> single_timer a'.
Proof. intros Hs Hh. by destruct (handle_timers ev a a' Hs Hh). Qed.

Lemma running_timers (a : App) :
  running a ->
  single_timer a
  /\ Forall at_most_one_live (run_loop_log a)
  /\ window_fits (config a) = true.
Proof.
  induction 1 as [fs0 env a Hm | a ev a' _ (Hs & Hlog & Hw) _ Hh].
  - destruct (main_timers fs0 env a Hm) as ((t & tm & Ht & Hl & Hv & Hp & Hlive) & Hlog & Hw).
    split; [by exists t, tm |]. split; [| done].
    rewrite Hlog. constructor; [| constructor]. unfold at_most_one_live.
    unfold live_timers in Hlive. rewrite Hlive. simpl. lia.
  - destruct (handle_timers ev a a' Hs Hh) as (Hs' & Hlog' & Hw'). by auto.
Qed.

Lemma running_single_timer (a : App) : running a -> single_timer a.
Proof. intros Hr. by destruct (running_timers a Hr). Qed.

(** In a run, a timer that fires has the configured period. *)
Lemma running_tick_period (a : App) (t : nat) (tm : Timer) :
  running a -> run_loop a !! t = Some tm -> valid tm = true ->
  timer a = Some t /\ period_ms tm = check_interval (config a).
Proof.
  intros Hr Hl Hv.
  destruct (running_single_timer a Hr) as (t0 & tm0 & Ht & Hl0 & Hv0 & Hp & Hlive).
  pose proof (live_lookup _ _ _ Hl Hv) as Hin.
  unfold live_timers in Hlive. rewrite Hlive in Hin.
  destruct Hin as [<- | []].
  destruct (decide (t = t0)) as [-> | Hne]; [done |].
  exfalso.
  assert (Hcount : length (List.filter valid (run_loop a)) >= 2).
  { clear Hlive Hp Ht. revert t t0 Hl Hl0 Hne.
    induction (run_loop a) as [|x l IH]; intros t t0 Hl Hl0 Hne; [done |].
    destruct t as [|t], t0 as [|t0]; cbn in Hl, Hl0 |- *; try done.
    - injection Hl as ->. rewrite Hv. cbn.
      pose proof (live_lookup _ _ _ Hl0 Hv) as Hin.
      destruct (List.filter valid l); [destruct Hin | cbn; lia].
    - injection Hl0 as ->. rewrite Hv. cbn.
      pose proof (live_lookup _ _ _ Hl Hv) as Hin.
      destruct (List.filter valid l); [destruct Hin | cbn; lia].
    - assert (t <> t0) by congruence.
      specialize (IH t t0 Hl Hl0 ltac:(done)).
      destruct (valid x); cbn; lia. }
  rewrite Hlive in Hcount. cbn in Hcount. lia.
Qed.

(** C8.  In a run of the program, a change of the poll interval to [Y]
    first saves the setting, then invalidates the timer the monitor holds,
    which leaves no live timer, and only then schedules the new one: the
    run loop's log gets exactly these two entries, in this order, the first
    without a live timer and the second with one.  No entry of the log, from
    the start of the run on, shows two live timers.  When the change
    completes exactly one timer is live, its period is [Y], it is the one
    the monitor holds, and the old timer is still in the run loop but
    invalid; from then on a timer that fires is that new one, with period
    [Y]. *)
Theorem interval_change_single_timer (a : App) (Y : Z) :
  running a ->
  exists a1 a2 a' t t',
    (set_check_interval (Py.Int Y) ;; save) a = (Val tt, a1)
    /\ timer a = Some t
    /\ stop_timer a1 = (Val tt, a2)
    /\ run_loop a2 = alter invalidated t (run_loop a)
    /\ live_timers a2 = []
    /\ start_timer (Py.Int Y) a2 = (Val tt, a')
    /\ setCheckInterval_ Y a = (Val tt, a')
    /\ run_loop_log a' = (run_loop_log a ++ [run_loop a2; run_loop a'])%list
    /\ Forall at_most_one_live (run_loop_log a')
    /\ live_timers a' = [{| period_ms := Py.Int Y; valid := true |}]
    /\ timer a' = Some t'
    /\ t <> t'
    /\ (exists old, run_loop a' !! t = Some old /\ valid old = false)
    /\ running a'
    /\ (forall i tm, run_loop a' !! i = Some tm -> valid tm = true ->
        i = t' /\ period_ms tm = Py.Int Y).
Proof.
  intros Hr.
  destruct (running_timers a Hr) as (Hs & Hlog & _).
  destruct (interval_change_steps a Y Hs)
    as (a1 & a2 & a' & t & t' & H1 & Ht & H2 & Ha2 & Hl2 & H3 & H4 & Hlg & Hl & Ht'
        & Hrl & Hne & Hold & Hc & _).
  assert (Hr' : running a').
  { by apply (running_step a (SetCheckInterval Y) a'). }
  exists a1, a2, a', t, t'. split_and!; try done.
  - by destruct (running_timers a' Hr') as (_ & ? & _).
  - intros i tm Hi Hv. split.
    + destruct (running_tick_period a' i tm Hr') as [Hi' _]; congruence.
    + destruct (running_tick_period a' i tm Hr') as [_ Hp]; congruence.
Qed.

End SchedulerFacts.

(** ** The statements at sample worlds *)

(** C1.  Two configurations in which the menu holds the muted keyword and
    the poll does not answer [True].  With the keyword [Mute "Audio"] the
    generated source does not compile: the poll answers [None] with the
    compiler's message.  With the keyword [Audio\new] the script reads the
    literal as "Audio", a line feed, "ew"; the item [Audio\new] is not equal
    to that, the second scan finds the unmuted keyword, and the poll answers
    [False]. *)
Theorem unescaped_keyword_defeats_match :
  (In quoted_keyword [quoted_keyword; "UNMUTED"]
   /\ checkMuteStatus (meeting [quoted_keyword; "UNMUTED"])
        (configured quoted_keyword "UNMUTED")
      = (Val None,
         with_last_error
           (Some (applescript_error "Expected end of line but found identifier."))
           (configured quoted_keyword "UNMUTED")))
  /\ (In backslash_keyword [backslash_keyword; "UNMUTED"]
      /\ read_literal backslash_keyword = Some ("Audio" ++ Py.nl ++ "ew")
      /\ checkMuteStatus (meeting [backslash_keyword; "UNMUTED"])
           (configured backslash_keyword "UNMUTED")
         = (Val (Some false),
            with_last_error None
              (with_queries [ExistsProcess "zoom.us"; MenuItemNames "zoom.us"]
                 (configured backslash_keyword "UNMUTED")))).
Proof.
  split; split; try (by left); [| split]; vm_compute; reflexivity.
Qed.

(** C2.  A menu whose one item is [Audio|Video], with the default keywords:
    the poll answers [None], and the detail it records lists "Audio" and
    "Video" on two lines; the item itself occurs nowhere in it. *)
Theorem separator_in_item_splits_entry :
  exists detail,
    (forall x, In x ["Audio|Video"] ->
       is_equal_to x default_muted_keyword = false
       /\ is_equal_to x default_unmuted_keyword = false)
    /\ checkMuteStatus (meeting ["Audio|Video"]) (boot fs_writable)
       = (Val None,
          with_last_error (Some detail)
            (with_queries [ExistsProcess "zoom.us"; MenuItemNames "zoom.us"]
               (boot fs_writable)))
    /\ detail
       = keyword_not_found defaults ++ Py.nl ++ Py.nl ++ "【実際のメニュー項目】" ++ Py.nl
         ++ "- Audio" ++ Py.nl ++ "- Video" ++ Py.nl
    /\ Py.contains "Audio|Video" detail = false.
Proof.
  eexists. split; [| split; [| split]].
  - intros x [<- | []]. split; vm_compute; reflexivity.
  - vm_compute. reflexivity.
  - vm_compute. reflexivity.
  - vm_compute. reflexivity.
Qed.



(** C6 at a sample world: a writable file system, a record with every field
    set. *)
Lemma save_load_roundtrip_witness :
  exists a1,
    save (with_config sample_settings (boot fs_writable)) = (Val tt, a1)
    /\ (exists a2, load (with_config defaults a1) = (Val tt, a2)
                   /\ config a2 = sample_settings)
    /\ (exists a3, Config_init a1 = (Val tt, a3) /\ config a3 = sample_settings).
Proof.
  apply (save_load_roundtrip sample_settings defaults (boot fs_writable));
    reflexivity.
Defined.

(** C8 at a sample world: the started monitor, the interval set to 500 ms. *)
Lemma interval_change_witness :
  running started
  /\ exists a',
       setCheckInterval_ 500 started = (Val tt, a')
       /\ Forall at_most_one_live (run_loop_log a')
       /\ live_timers a' = [{| period_ms := Py.Int 500; valid := true |}].
Proof.
  assert (Hr : running started).
  { apply (running_main fs_writable
             (meeting ["オーディオのミュート"; "ビデオの停止"])).
    vm_compute. reflexivity. }
  split; [exact Hr |].
  destruct (interval_change_single_timer started 500 Hr)
    as (a1 & a2 & a' & t & t' & _ & _ & _ & _ & _ & _ & Hset & Hlog & Hall & Hlive & _).
  exists a'. split_and!; assumption.
Defined.

(** * Further properties *)

(** ** The poll as a whole *)

Section PollFacts.
Context `{TextComparison}.

(** The scripting call answers and asks the same whatever state it is run
    in; unless a keyword spills, its queries are those of the process
    lookup. *)
Lemma execute_uniform (env : Env) (script : Script) :
  exists res qs,
    (forall a, executeAndReturnError_ env script a
               = (res, with_queries (queries a ++ qs)%list a))
    /\ (compile script <> Spills ->
        qs = []
        \/ qs = [ExistsProcess "zoom.us"]
        \/ (qs = [ExistsProcess "zoom.us"; MenuItemNames "zoom.us"]
            /\ process_exists env "zoom.us" = true)
        \/ (qs = [ExistsProcess "zoom.us"; ExistsProcess "Zoom"]
            /\ process_exists env "zoom.us" = false)
        \/ (qs = [ExistsProcess "zoom.us"; ExistsProcess "Zoom"; MenuItemNames "Zoom"]
            /\ process_exists env "zoom.us" = false
            /\ process_exists env "Zoom" = true)).
Proof.
  unfold executeAndReturnError_.
  destruct (bridge_fault env) as [e |].
  { exists (Raised e), []. split; [| by left].
    intros a. by rewrite with_queries_nil. }
  destruct (compile script) as [mk uk | |].
  2:{ eexists _, []. split; [| by left]. intros a. by rewrite with_queries_nil. }
  2:{ unfold bind, modify, ret. eexists _, _. split; [intros a; reflexivity | done]. }
  unfold tell_System_Events, tell_process, bind, ask, modify, ret.
  destruct (events_fault env) as [err |]; cbn.
  { eexists _, [_]. split; [intros a; reflexivity | by right; left]. }
  destruct (process_exists env "zoom.us") eqn:Hz; cbn.
  { destruct (menu_item_names env "zoom.us"); eexists _, [_; _];
      (split; [intros a; by rewrite <- app_assoc | by right; right; left]). }
  destruct (process_exists env "Zoom") eqn:HZ; cbn.
  { destruct (menu_item_names env "Zoom"); eexists _, [_; _; _];
      (split; [intros a; by rewrite <- !app_assoc | by right; right; right; right]). }
  eexists _, [_; _].
  split; [intros a; by rewrite <- app_assoc | by right; right; right; left].
Qed.

(** The classification reads nothing of the state but the configuration. *)
Lemma classify_uniform (r : option (option string) * option ErrorInfo) (c : Config) :
  exists v e,
    (forall a, config a = c -> classify_result r a = (Val v, with_last_error e a))
    /\ match v with
       | Some _ => e = None
       | None => exists msg, e = Some msg /\ Py.truthy msg = true
       end.
Proof.
  destruct (classify_result_returns r (with_config c (boot fs_writable)))
    as (v & e & Hc & Hv).
  exists v, e. split; [| done]. intros a <-.
  revert Hc. destruct r as [result [error |]]; unfold classify_result; cbn [fst snd].
  - by intros [= <- <-].
  - set (status := match result with
                   | Some (Some text) => text
                   | Some None => "None"
                   | None => "unknown"
                   end).
    destruct (String.eqb status "muted"); [by intros [= <- <-] |].
    destruct (String.eqb status "unmuted"); [by intros [= <- <-] |].
    unfold bind, get.
    destruct (String.eqb status "not_running"); [by intros [= <- <-] |].
    destruct (Py.startswith "unknown:" status); [by intros [= <- <-] |].
    destruct (Py.startswith "error:" status); [by intros [= <- <-] |].
    destruct (String.eqb status "unknown"); by intros [= <- <-].
Qed.

(** The poll, for a configuration and a world: one answer, one error slot,
    one list of queries, whatever else the state holds. *)
Lemma poll_uniform (env : Env) (c : Config) :
  exists v e qs,
    (forall a, config a = c ->
       checkMuteStatus env a
       = (Val v, with_last_error e (with_queries (queries a ++ qs)%list a)))
    /\ match v with
       | Some _ => e = None
       | None => exists msg, e = Some msg /\ Py.truthy msg = true
       end.
Proof.
  destruct (execute_uniform env (script_source c)) as (res & qs & Hex & _).
  destruct res as [r | ex].
  - destruct (classify_uniform r c) as (v & e & Hc & Hv).
    exists v, e, qs. split; [| done]. intros a Ha.
    rewrite checkMuteStatus_unfold, Ha, Hex. by apply Hc.
  - exists None, (Some (unexpected_error ex)), qs. split.
    + intros a Ha. by rewrite checkMuteStatus_unfold, Ha, Hex.
    + eexists. split; reflexivity.
Qed.

(** X1.  When each keyword is read by the script as one string literal, a
    poll writes the error slot and adds to the System Events queries; it
    leaves the configuration, the timer it runs on, the run loop, the
    settings file and standard output as they were. *)
Theorem poll_touches_only_error_and_queries (env : Env) (a : App) :
  literal_keywords (config a) ->
  exists v a',
    checkMuteStatus env a = (Val v, a')
    /\ config a' = config a
    /\ timer a' = timer a
    /\ run_loop a' = run_loop a
    /\ fs a' = fs a
    /\ stdout a' = stdout a
    /\ exists qs, queries a' = (queries a ++ qs)%list.
Proof.
  intros _.
  destruct (poll_uniform env (config a)) as (v & e & qs & Hp & _).
  eexists _, _. split; [by apply Hp |]. cbn. by eauto 10.
Qed.


(** X4.  When each keyword is read by the script as one string literal, the
    texts the script returns are the five the classification names first:
    "muted", "unmuted", "not_running", or a text that begins with "unknown:"
    or with "error:".  The two last branches of the classification (the bare
    "unknown" and the unrecognised status) are never taken for it. *)
Theorem script_answers_are_recognised (env : Env) (c : Config) (a a1 : App)
    (result : option (option string)) :
  literal_keywords c ->
  executeAndReturnError_ env (script_source c) a = (Val (result, None), a1) ->
  exists text,
    result = Some (Some text)
    /\ (text = "muted" \/ text = "unmuted" \/ text = "not_running"
        \/ Py.startswith "unknown:" text = true
        \/ Py.startswith "error:" text = true)
    /\ text <> "unknown"
    /\ recognised text = true.
Proof.
  intros [[mk Hmk] [uk Huk]].
  unfold executeAndReturnError_.
  destruct (bridge_fault env); [discriminate |].
  rewrite (compile_literal c mk uk) by done.
  unfold tell_System_Events, tell_process, tell_menu_bar_item, bind, ask, modify, ret.
  destruct (events_fault env); cbn; [discriminate |].
  assert (Hmenu : forall p,
    match menu_item_names env p with
    | inl errMsg => Py.startswith "error:" ("error:" ++ errMsg) = true
    | inr _ => True
    end) by (intros p; by destruct (menu_item_names env p)).
  destruct (process_exists env "zoom.us"); cbn.
  - destruct (menu_item_names env "zoom.us") as [errMsg | L]; intros [= <- _];
      eexists; (split; [reflexivity |]).
    + by repeat split; eauto 6.
    + destruct (repeat_returns mk L); [by repeat split; eauto 6 |].
      destruct (repeat_returns uk L); by repeat split; eauto 6.
  - destruct (process_exists env "Zoom"); cbn.
    + destruct (menu_item_names env "Zoom") as [errMsg | L]; intros [= <- _];
        eexists; (split; [reflexivity |]).
      * by repeat split; eauto 6.
      * destruct (repeat_returns mk L); [by repeat split; eauto 6 |].
        destruct (repeat_returns uk L); by repeat split; eauto 6.
    + intros [= <- _]. eexists. split; [reflexivity |]. by repeat split; eauto 6.
Qed.

End PollFacts.

(** ** The settings file over time *)

Section PersistenceFacts.
Context `{TextComparison}.

(** [save], by whether the file can be written. *)
Lemma save_cases (a : App) :
  (writable (fs a)
   /\ save a = (Val tt,
                with_fs {| file := Holds (DocObject (to_dict (config a)));
                           makedirs_fault := None; open_fault := None |} a))
  \/ (~ writable (fs a)
      /\ exists e,
           save a = (Val tt,
                     with_stdout
                       (stdout a ++ [("Failed to save config: " ++ Py.message e)%string])%list
                       a)).
Proof.
  unfold writable, save. unfold_m.
  destruct (makedirs_fault (fs a)) as [e |] eqn:Hm; cbn.
  - right. split; [by intros [? _] |]. by exists e.
  - destruct (open_fault (fs a)) as [e |] eqn:Ho; cbn.
    + right. split; [by intros [_ ?] |]. by exists e.
    + left. by rewrite Hm.
Qed.

(** What [Config()] reads depends on the file alone. *)
Lemma reloaded_spec (a : App) :
  reloaded a = match file (fs a) with
               | Holds (DocObject data) => fields_of data
               | _ => defaults
               end.
Proof.
  unfold reloaded, Config_init, bind, modify.
  destruct (file (fs a)) as [| e | e | [data | ty]] eqn:Hf.
  - by rewrite load_missing.
  - by rewrite (load_unreadable _ e) by eauto.
  - by rewrite (load_unreadable _ e) by eauto.
  - by rewrite (load_object _ data).
  - by rewrite (load_not_an_object _ ty).
Qed.

Lemma Config_init_frame (a : App) :
  exists o, Config_init a = (Val tt, with_stdout o (with_config (reloaded a) a)).
Proof.
  rewrite reloaded_spec. unfold Config_init, bind, modify.
  destruct (file (fs a)) as [| e | e | [data | ty]] eqn:Hf.
  - rewrite load_missing by done. by exists (stdout a).
  - rewrite (load_unreadable _ e) by eauto. by eexists.
  - rewrite (load_unreadable _ e) by eauto. by eexists.
  - rewrite (load_object _ data) by done. by exists (stdout a).
  - rewrite (load_not_an_object _ ty) by done. by eexists.
Qed.

Lemma reloaded_same_file (a b : App) : fs a = fs b -> reloaded a = reloaded b.
Proof. intros Hf. by rewrite !reloaded_spec, Hf. Qed.

(** X6.  A save that cannot write (the directory cannot be made or the file
    cannot be opened) does not raise: it prints one line that begins
    "Failed to save config: ", and changes nothing else, so the file still
    holds what it held and a later [Config()] reads the old settings, not
    the ones in memory. *)
Theorem failed_save_keeps_file (a : App) :
  ~ writable (fs a) ->
  exists line,
    save a = (Val tt, with_stdout (stdout a ++ [line])%list a)
    /\ Py.startswith "Failed to save config: " line = true
    /\ reloaded (snd (save a)) = reloaded a.
Proof.
  intros Hw. destruct (save_cases a) as [[Hw' _] | [_ [e Hs]]]; [done |].
  eexists. split; [exact Hs |]. split; [reflexivity |].
  rewrite Hs. by apply reloaded_same_file.
Qed.

(** X7.  Loading a settings document and saving it again normalises it: the
    file then holds exactly the six settings keys, each with the value that
    was loaded or defaulted; every other field of the old document is gone;
    and loading the new file gives the same settings again. *)
Theorem load_then_save_normalises (a : App) (data : gmap string Py.value) :
  writable (fs a) ->
  file (fs a) = Holds (DocObject data) ->
  exists a' data',
    (Config_init ;; save) a = (Val tt, a')
    /\ config a' = fields_of data
    /\ file (fs a') = Holds (DocObject data')
    /\ (forall k, is_Some (data' !! k) <-> In k settings_keys)
    /\ fields_of data' = fields_of data
    /\ reloaded a' = config a'.
Proof.
  intros Hw Hf. unfold bind.
  destruct (Config_init_frame a) as (o & ->).
  rewrite reloaded_spec, Hf.
  destruct (save_cases (with_stdout o (with_config (fields_of data) a)))
    as [[_ ->] | [Hn _]]; [| done].
  eexists _, _. split; [reflexivity |]. split; [reflexivity |].
  split; [reflexivity |]. split; [| split].
  - intros k. cbn [config with_stdout with_config]. unfold to_dict, settings_keys.
    split.
    + intros Hk.
      destruct (decide (k = "check_interval")) as [-> | ?]; [cbn; tauto |].
      destruct (decide (k = "unmuted_keyword")) as [-> | ?]; [cbn; tauto |].
      destruct (decide (k = "muted_keyword")) as [-> | ?]; [cbn; tauto |].
      destruct (decide (k = "icon_size")) as [-> | ?]; [cbn; tauto |].
      destruct (decide (k = "window_y")) as [-> | ?]; [cbn; tauto |].
      destruct (decide (k = "window_x")) as [-> | ?]; [cbn; tauto |].
      rewrite !lookup_insert_ne, lookup_empty in Hk by done.
      by destruct Hk.
    + intros Hk. cbn in Hk.
      destruct Hk as [<- | [<- | [<- | [<- | [<- | [<- | []]]]]]];
        by simplify_map_eq.
  - apply fields_of_to_dict.
  - rewrite reloaded_spec. cbn. apply fields_of_to_dict.
Qed.

(** One step of a run keeps the failures of the file system as they are, and
    keeps memory and file in agreement when the file can be written. *)
Lemma save_after_change (c : Config) (a : App) :
  exists a1,
    save (with_config c a) = (Val tt, a1)
    /\ config a1 = c
    /\ timer a1 = timer a /\ run_loop a1 = run_loop a
    /\ makedirs_fault (fs a1) = makedirs_fault (fs a)
    /\ open_fault (fs a1) = open_fault (fs a)
    /\ (writable (fs a) -> reloaded a1 = c).
Proof.
  destruct (save_cases (with_config c a)) as [[[Hm Ho] ->] | [Hn [e ->]]];
    eexists; split_and!; try done.
  intros _. rewrite reloaded_spec. cbn. apply fields_of_to_dict.
Qed.

Lemma handle_persistence (ev : Event) (a a' : App) :
  handle ev a = (Val tt, a') ->
  makedirs_fault (fs a') = makedirs_fault (fs a)
  /\ open_fault (fs a') = open_fault (fs a)
  /\ (writable (fs a) -> reloaded a = config a -> reloaded a' = config a').
Proof.
  destruct ev as [t env | n | n | r text | r text]; cbn [handle].
  - destruct (updateStatus_frame env a) as (e & q & ->). intros [= <-].
    split_and!; try done. intros _ Hr.
    change (config (with_last_error e (with_queries q a))) with (config a).
    rewrite <- Hr. by apply reloaded_same_file.
  - unfold setIconSize_, bind, set_icon_size, modify.
    match goal with
    | |- context [save (with_config ?c a)] =>
        destruct (save_after_change c a) as (a1 & -> & Hc & _ & _ & Hm & Ho & Hr)
    end.
    intros [= <-]. split_and!; try done. intros Hw _. rewrite Hc. by apply Hr.
  - unfold setCheckInterval_, bind, set_check_interval, modify.
    match goal with
    | |- context [save (with_config ?c a)] =>
        destruct (save_after_change c a) as (a1 & -> & Hc & _ & _ & Hm & Ho & Hr)
    end.
    unfold stop_timer, start_timer, scheduledTimer, invalidate, bind, get, modify.
    cbn [Py.numeric].
    destruct (timer a1); intros [= <-]; cbn; split_and!; try done;
      intros Hw _; rewrite Hc, <- (Hr Hw); by apply reloaded_same_file.
  - destruct (editors_cases r text) as [Hd | [Hr Ht]].
    + destruct (editors_dismissed r text a Hd) as [-> _]. by intros [= <-].
    + destruct (editors_confirmed r text a Hr Ht) as [-> _].
      destruct (save_after_change (with_muted_keyword text (config a)) a)
        as (a1 & -> & Hc & _ & _ & Hm & Ho & Hrl).
      intros [= <-]. split_and!; try done. intros Hw _. rewrite Hc. by apply Hrl.
  - destruct (editors_cases r text) as [Hd | [Hr Ht]].
    + destruct (editors_dismissed r text a Hd) as [_ ->]. by intros [= <-].
    + destruct (editors_confirmed r text a Hr Ht) as [_ ->].
      destruct (save_after_change (with_unmuted_keyword text (config a)) a)
        as (a1 & -> & Hc & _ & _ & Hm & Ho & Hrl).
      intros [= <-]. split_and!; try done. intros Hw _. rewrite Hc. by apply Hrl.
Qed.

(** [main], when the window can be set up with the settings read from the
    file and the interval read is a number. *)
Lemma main_from_file (fs0 : FS) (env : Env) :
  window_fits (reloaded (boot fs0)) = true ->
  Py.numeric (check_interval (reloaded (boot fs0))) = true ->
  exists b,
    main env (boot fs0) = (Val tt, b)
    /\ config b = reloaded (boot fs0)
    /\ fs b = fs0
    /\ live_timers b
       = [{| period_ms := check_interval (reloaded (boot fs0)); valid := true |}].
Proof.
  intros Hw Hn.
  unfold main, init, startMonitoring, bind, set_last_error, modify.
  destruct (Config_init_frame (with_timer None (boot fs0))) as (o & ->).
  replace (reloaded (with_timer None (boot fs0))) with (reloaded (boot fs0))
    by (by apply reloaded_same_file).
  match goal with
  | |- context [setupWindow env ?s] =>
      destruct (setupWindow_cases env s) as [[_ ->] | [Hf _]]
  end; [| cbn in Hf; congruence].
  unfold start_timer, scheduledTimer, bind, modify, get.
  cbn. rewrite Hn.
  match goal with
  | |- context [updateStatus_ env ?s] =>
      destruct (updateStatus_frame env s) as (e & q & ->)
  end.
  eexists. split; [reflexivity |]. by split_and!.
Qed.

Lemma main_outcome (fs0 : FS) (env : Env) (a : App) :
  main env (boot fs0) = (Val tt, a) ->
  config a = reloaded (boot fs0) /\ fs a = fs0.
Proof.
  destruct (window_fits (reloaded (boot fs0))) eqn:Hw;
    [destruct (Py.numeric (check_interval (reloaded (boot fs0)))) eqn:Hn |].
  - destruct (main_from_file fs0 env Hw Hn) as (b & -> & Hc & Hf & _).
    by intros [= <-].
  - unfold main, init, startMonitoring, bind, set_last_error, modify.
    destruct (Config_init_frame (with_timer None (boot fs0))) as (o & ->).
    replace (reloaded (with_timer None (boot fs0))) with (reloaded (boot fs0))
      by (by apply reloaded_same_file).
    match goal with
    | |- context [setupWindow env ?s] =>
        destruct (setupWindow_cases env s) as [[_ ->] | [_ [e ->]]]
    end; [| discriminate].
    unfold start_timer, scheduledTimer, bind, modify, get.
    cbn. by rewrite Hn.
  - unfold main, init, startMonitoring, bind, set_last_error, modify.
    destruct (Config_init_frame (with_timer None (boot fs0))) as (o & ->).
    replace (reloaded (with_timer None (boot fs0))) with (reloaded (boot fs0))
      by (by apply reloaded_same_file).
    match goal with
    | |- context [setupWindow env ?s] =>
        destruct (setupWindow_cases env s) as [[Hf _] | [_ [e ->]]]
    end; [cbn in Hf; congruence | discriminate].
Qed.

(** X8.  In a run of the program on a file system that can be written, the
    settings in memory are at every moment the settings a fresh [Config()]
    would read from the file: no menu action leaves a change unsaved. *)
Theorem settings_in_memory_match_file (a : App) :
  running a -> writable (fs a) -> reloaded a = config a.
Proof.
  induction 1 as [fs0 env a Hm | a ev a' Hr IH _ Hh]; intros Hw.
  - destruct (main_outcome fs0 env a Hm) as [-> Hf].
    apply reloaded_same_file. by rewrite Hf.
  - destruct (handle_persistence ev a a' Hh) as (Hm & Ho & Hp).
    assert (Hwa : writable (fs a)).
    { destruct Hw as [Hw1 Hw2]. split; congruence. }
    by apply Hp; [| apply IH].
Qed.

(** X9.  A change of the poll interval survives a restart: in a run of the
    program on a file system that can be written, starting the program again
    on the file system the change leaves behind brings back the whole
    configuration, and the one timer it schedules has the chosen period. *)
Theorem interval_change_survives_restart (a : App) (Y : Z) (env : Env) :
  running a ->
  writable (fs a) ->
  exists a' b,
    setCheckInterval_ Y a = (Val tt, a')
    /\ check_interval (config a') = Py.Int Y
    /\ main env (boot (fs a')) = (Val tt, b)
    /\ config b = config a'
    /\ live_timers b = [{| period_ms := Py.Int Y; valid := true |}].
Proof.
  intros Hrun Hw.
  destruct (running_timers a Hrun) as (Hs & _ & Hfit).
  destruct (interval_change_steps a Y Hs)
    as (a1 & a2 & a' & t & t' & _ & _ & _ & _ & _ & _ & Hset & _ & _ & _ & _ & _ & _
        & Hci & Hfit').
  assert (Hrun' : running a').
  { by apply (running_step a (SetCheckInterval Y) a'). }
  destruct (handle_persistence (SetCheckInterval Y) a a' Hset) as (Hm & Ho & _).
  assert (Hw' : writable (fs a')).
  { destruct Hw as [Hw1 Hw2]. split; congruence. }
  assert (Hrl : reloaded a' = config a').
  { revert Hrun' Hw'. clear. induction 1 as [fs0 env a Hm | a ev a' Hr IH _ Hh];
      intros Hw.
    - destruct (main_outcome fs0 env a Hm) as [-> Hf].
      apply reloaded_same_file. by rewrite Hf.
    - destruct (handle_persistence ev a a' Hh) as (Hm & Ho & Hp).
      assert (Hwa : writable (fs a)).
      { destruct Hw as [Hw1 Hw2]. split; congruence. }
      by apply Hp; [| apply IH]. }
  assert (Hb : reloaded (boot (fs a')) = config a').
  { rewrite <- Hrl. by apply reloaded_same_file. }
  destruct (main_from_file (fs a') env) as (b & Hmain & Hcb & _ & Hl).
  { by rewrite Hb, Hfit'. }
  { by rewrite Hb, Hci. }
  exists a', b. split_and!; try done.
  - by rewrite Hcb, Hb.
  - by rewrite Hl, Hb, Hci.
Qed.


(** X23.  Starting on settings the window cannot be set up with (an icon
    size that is no number, or a saved position with a coordinate that is no
    number): [main] raises before any timer is scheduled and leaves the
    settings file as it found it; for an icon size that is no number the
    exception is a [TypeError]. *)
Theorem startup_stops_on_unfit_settings (fs0 : FS) (env : Env) :
  window_fits (reloaded (boot fs0)) = false ->
  exists e b,
    main env (boot fs0) = (Raised e, b)
    /\ timer b = None
    /\ run_loop b = []
    /\ run_loop_log b = []
    /\ fs b = fs0
    /\ (Py.numeric (icon_size (reloaded (boot fs0))) = false ->
        Py.type_name e = "TypeError").
Proof.
  intros Hw.
  unfold main, init, startMonitoring, bind, set_last_error, modify.
  destruct (Config_init_frame (with_timer None (boot fs0))) as (o & ->).
  replace (reloaded (with_timer None (boot fs0))) with (reloaded (boot fs0))
    by (by apply reloaded_same_file).
  revert Hw. unfold setupWindow, window_fits, bind, get, ret, raise. cbn.
  destruct (Py.numeric (icon_size (reloaded (boot fs0)))); cbn.
  - destruct (is_not_None (window_x (reloaded (boot fs0)))
              && is_not_None (window_y (reloaded (boot fs0)))); cbn; [| done].
    intros ->. eexists _, _. by split_and!.
  - intros _. eexists _, _. by split_and!.
Qed.

End PersistenceFacts.

(** ** The overlay and the context menu *)

Section OverlayFacts.
Context `{TextComparison}.

Lemma string_length_app (s t : string) :
  String.length (s ++ t) = String.length s + String.length t.
Proof. induction s as [|c s IH]; simpl; congruence. Qed.

Lemma string_app_inv_tail (s s' t : string) : s ++ t = s' ++ t -> s = s'.
Proof.
  revert s'. induction s as [|c s IH]; intros [|c' s'] Heq; simpl in Heq.
  - done.
  - apply (f_equal String.length) in Heq. simpl in Heq.
    rewrite string_length_app in Heq. lia.
  - apply (f_equal String.length) in Heq. simpl in Heq.
    rewrite string_length_app in Heq. lia.
  - injection Heq as -> Heq. by rewrite (IH s').
Qed.

(** A settings value equals at most one integer other than zero. *)
Lemma int_eq_value_unique (n m : Z) (v : Py.value) :
  n <> 0%Z -> m <> 0%Z ->
  int_eq_value n v = true -> int_eq_value m v = true -> n = m.
Proof.
  intros Hn Hm. destruct v as [| b | z | r | s | ty p]; cbn [int_eq_value];
    try discriminate.
  - intros H1 H2. apply Z.eqb_eq in H1, H2. congruence.
  - intros H1 H2. apply Z.eqb_eq in H1, H2. congruence.
  - apply Z.eqb_neq in Hn, Hm. rewrite Hn, Hm. cbn [andb]. rewrite !orb_false_r.
    intros H1 H2. apply String.eqb_eq in H1, H2. subst r.
    apply string_app_inv_tail in H2. by apply (inj pretty).
Qed.

Lemma filter_at_most_one (f : Z -> bool) (l : list Z) :
  List.NoDup l ->
  (forall n m, In n l -> In m l -> f n = true -> f m = true -> n = m) ->
  length (List.filter f l) <= 1.
Proof.
  induction l as [|x l IH]; intros Hnd Hu; [simpl; lia |].
  inversion Hnd as [| ? ? Hx Hnd']; subst. cbn [List.filter].
  destruct (f x) eqn:Hfx.
  - assert (Hnil : List.filter f l = []).
    { destruct (List.filter f l) as [|y ys] eqn:Hf; [done |].
      assert (Hy : In y (List.filter f l)) by (rewrite Hf; by left).
      apply filter_In in Hy as [Hy Hfy].
      assert (x = y) by (apply Hu; cbn; by eauto).
      by subst. }
    rewrite Hnil. simpl. lia.
  - apply IH; [done |]. intros n m Hin Him. apply Hu; by right.
Qed.

Lemma presets_distinct_nonzero :
  (List.NoDup size_presets /\ forall n, In n size_presets -> n <> 0%Z)
  /\ (List.NoDup interval_presets /\ forall n, In n interval_presets -> n <> 0%Z).
Proof.
  split; (split; [| intros n Hn; cbn in Hn; intuition (subst; done)]).
  - repeat (apply List.NoDup_cons; [cbn; intuition discriminate |]).
    apply List.NoDup_nil.
  - repeat (apply List.NoDup_cons; [cbn; intuition discriminate |]).
    apply List.NoDup_nil.
Qed.

(** A preset item carries the mark exactly when its value equals the
    setting. *)
Lemma size_item_marked (c : Config) (n : Z) :
  In n size_presets -> marked (size_item c n) = int_eq_value n (icon_size c).
Proof.
  unfold marked, size_item; cbn [title].
  generalize (int_eq_value n (icon_size c)). intros b Hn. cbn in Hn.
  destruct Hn as [<- | [<- | [<- | [<- | [<- | [<- | [<- | [<- | [<- | [<- | []]]]]]]]]]];
    destruct b; vm_compute; reflexivity.
Qed.

Lemma interval_item_marked (c : Config) (n : Z) :
  In n interval_presets ->
  marked (interval_item c n) = int_eq_value n (check_interval c).
Proof.
  unfold marked, interval_item; cbn [title].
  generalize (int_eq_value n (check_interval c)). intros b Hn. cbn in Hn.
  destruct Hn as [<- | [<- | [<- | [<- | [<- | [<- | [<- | [<- | []]]]]]]]];
    destruct b; vm_compute; reflexivity.
Qed.

Lemma filter_map_In {A B : Type} (f : A -> B) (p : B -> bool) (q : A -> bool)
    (l : list A) :
  (forall x, In x l -> p (f x) = q x) ->
  List.filter p (map f l) = map f (List.filter q l).
Proof.
  induction l as [|x l IH]; intros Hpq; [done |].
  cbn [map List.filter]. rewrite (Hpq x) by (by left).
  rewrite IH by (intros y Hy; apply Hpq; by right).
  by destruct (q x).
Qed.

(** X11.  The context menu never shows two check marks in a submenu:
    whatever the settings hold, at most one size preset and at most one
    interval preset is marked, and a marked preset is one whose value equals
    the setting. *)
Theorem presets_marked_at_most_once (a : App) :
  length (List.filter marked (map (size_item (config a)) size_presets)) <= 1
  /\ length (List.filter marked (map (interval_item (config a)) interval_presets)) <= 1
  /\ (forall n, In n size_presets ->
        (marked (size_item (config a) n) = true
         <-> int_eq_value n (icon_size (config a)) = true))
  /\ (forall n, In n interval_presets ->
        (marked (interval_item (config a) n) = true
         <-> int_eq_value n (check_interval (config a)) = true)).
Proof.
  destruct presets_distinct_nonzero as [[Hs Hsz] [Hi Hiz]].
  split_and!.
  - rewrite (filter_map_In _ _ (fun n => int_eq_value n (icon_size (config a))))
      by apply size_item_marked.
    rewrite length_map. apply filter_at_most_one; [done |].
    intros n m Hn Hm. apply int_eq_value_unique; by auto.
  - rewrite (filter_map_In _ _ (fun n => int_eq_value n (check_interval (config a))))
      by apply interval_item_marked.
    rewrite length_map. apply filter_at_most_one; [done |].
    intros n m Hn Hm. apply int_eq_value_unique; by auto.
  - intros n Hn. by rewrite size_item_marked.
  - intros n Hn. by rewrite interval_item_marked.
Qed.

(** X12.  Choosing a preset moves the mark to it: after [setIconSize_] with
    the tag of a size preset the size submenu marks that preset and no
    other, and likewise the interval submenu after [setCheckInterval_]. *)
Theorem chosen_preset_is_marked (a : App) (n : Z) :
  (In n size_presets ->
   exists a',
     setIconSize_ n a = (Val tt, a')
     /\ List.filter marked (map (size_item (config a')) size_presets)
        = [ {| title := pretty n ++ "px" ++ check_mark;
               action := Some "setIconSize:"; tag := Some n; is_enabled := true |} ])
  /\ (In n interval_presets ->
      exists a',
        setCheckInterval_ n a = (Val tt, a')
        /\ List.filter marked (map (interval_item (config a')) interval_presets)
           = [ {| title := pretty n ++ "ms" ++ check_mark;
                  action := Some "setCheckInterval:"; tag := Some n;
                  is_enabled := true |} ]).
Proof.
  split; intros Hn.
  - unfold setIconSize_, bind, set_icon_size, modify.
    match goal with
    | |- context [save (with_config ?c a)] =>
        destruct (save_keeps_config c a) as (a1 & -> & Hc)
    end.
    exists a1. split; [done |]. rewrite Hc.
    rewrite (filter_map_In _ _ (fun m => Z.eqb m n))
      by (intros m Hm; by rewrite size_item_marked).
    cbn in Hn.
    destruct Hn as [<- | [<- | [<- | [<- | [<- | [<- | [<- | [<- | [<- | [<- | []]]]]]]]]]];
      vm_compute; reflexivity.
  - unfold setCheckInterval_, bind, set_check_interval, modify.
    match goal with
    | |- context [save (with_config ?c a)] =>
        destruct (save_after_change c a) as (a1 & -> & Hc & _)
    end.
    unfold stop_timer, start_timer, scheduledTimer, invalidate, bind, get, modify.
    cbn [Py.numeric].
    assert (Hf : List.filter marked (map (interval_item (config a1)) interval_presets)
                 = [ {| title := pretty n ++ "ms" ++ check_mark;
                        action := Some "setCheckInterval:"; tag := Some n;
                        is_enabled := true |} ]).
    { rewrite Hc.
      rewrite (filter_map_In _ _ (fun m => Z.eqb m n))
        by (intros m Hm; by rewrite interval_item_marked).
      cbn in Hn.
      destruct Hn as [<- | [<- | [<- | [<- | [<- | [<- | [<- | [<- | []]]]]]]]];
        vm_compute; reflexivity. }
    destruct (timer a1); eexists; (split; [reflexivity |]); exact Hf.
Qed.

(** X13.  The entry that opens the error viewer is in the context menu
    exactly when the last poll answered [None]; the menu has fourteen
    entries then and thirteen otherwise. *)
Theorem error_entry_iff_unknown (env : Env) (a : App) (is_login_item : bool) :
  exists ans a',
    checkMuteStatus env a = (Val ans, a')
    /\ (In error_entry (context_menu a' is_login_item) <-> ans = None)
    /\ length (context_menu a' is_login_item)
       = match ans with None => 14 | Some _ => 13 end.
Proof.
  destruct (poll_uniform env (config a)) as (ans & e & qs & Hp & He).
  eexists ans, _. split; [by apply Hp |].
  unfold context_menu. cbn [last_error with_last_error].
  destruct ans as [b |].
  - subst e. split; [| reflexivity]. split; [| done].
    cbn. unfold error_entry, plain_item.
    destruct is_login_item; intuition discriminate.
  - destruct He as (msg & -> & _). split; [| reflexivity].
    split; [done |]. intros _. cbn. by auto 10.
Qed.

(** X14.  The error viewer after a poll: it shows the message the poll
    recorded when the poll answered [None], and "エラー情報はありません" when
    the poll answered [True] or [False]. *)
Theorem error_viewer_after_poll (env : Env) (a : App) :
  exists ans a',
    checkMuteStatus env a = (Val ans, a')
    /\ match ans with
       | None => last_error a' = Some (showError_text a')
       | Some _ => showError_text a' = "エラー情報はありません"
       end.
Proof.
  destruct (poll_uniform env (config a)) as (ans & e & qs & Hp & He).
  eexists ans, _. split; [by apply Hp |].
  unfold showError_text. cbn [last_error with_last_error].
  destruct ans as [b |].
  - by subst e.
  - destruct He as (msg & -> & ->). reflexivity.
Qed.

(** X15.  One tick, when the icon size is a number: the poll's answer picks
    the icon; the view changes in nothing but its image, and only when the
    icon file is there and can be read, else it keeps showing what it
    showed; the "unknown" icon is picked exactly when the poll leaves an
    error detail. *)
Theorem tick_updates_icon (icons : Icons) (env : Env) (v : View) (a : App) :
  Py.numeric (icon_size (config a)) = true ->
  exists ans v' a',
    checkMuteStatus env a = (Val ans, a')
    /\ Monitor_updateStatus_ icons env v a = (Val v', a')
    /\ (if icon_exists icons (icon_for ans) && image_loads icons (icon_for ans)
        then v' = with_image
                    (Some {| icon_file := icon_for ans;
                             image_side := icon_size (config a) |}) v
        else v' = v)
    /\ (icon_for ans = "unknown-512.png" <-> is_Some (last_error a'))
    /\ (icon_for ans = "micOff-512.png" <-> ans = Some true)
    /\ (icon_for ans = "micOn-512.png" <-> ans = Some false).
Proof.
  intros Hn.
  destruct (poll_uniform env (config a)) as (ans & e & qs & Hp & He).
  specialize (Hp a eq_refl).
  unfold Monitor_updateStatus_, bind. rewrite Hp.
  unfold View_updateStatus_.
  exists ans.
  destruct (icon_exists icons (icon_for ans)); cbn [negb andb].
  - destruct (image_loads icons (icon_for ans)).
    + unfold bind, get. cbn [config with_last_error with_queries]. rewrite Hn.
      eexists _, _. split; [reflexivity |]. split; [reflexivity |].
      split; [reflexivity |]. cbn [last_error with_last_error].
      destruct ans as [[|] |]; cbn; [subst e | subst e | destruct He as (m & -> & _)];
        split_and!; split; intros Hx; try done; try (by destruct Hx);
        try (by eexists).
    + eexists _, _. split; [reflexivity |]. split; [reflexivity |].
      split; [reflexivity |]. cbn [last_error with_last_error].
      destruct ans as [[|] |]; cbn; [subst e | subst e | destruct He as (m & -> & _)];
        split_and!; split; intros Hx; try done; try (by destruct Hx);
        try (by eexists).
  - eexists _, _. split; [reflexivity |]. split; [reflexivity |].
    split; [reflexivity |]. cbn [last_error with_last_error].
    destruct ans as [[|] |]; cbn; [subst e | subst e | destruct He as (m & -> & _)];
      split_and!; split; intros Hx; try done; try (by destruct Hx);
      try (by eexists).
Qed.

(** X16.  Releasing the mouse.  Without a drag under way nothing happens and
    nothing is saved.  With one, the window's origin becomes the saved
    position, every other setting keeps its value, the drag is over, and a
    second release does nothing; when the file can be written, the position
    is what a fresh [Config()] reads. *)
Theorem mouse_release_saves_position (origin : string * string) (v : View) (a : App) :
  (drag_start v = None -> mouseUp_ origin v a = (Val v, a))
  /\ (forall start, drag_start v = Some start ->
      exists a',
        mouseUp_ origin v a = (Val (with_drag_start None v), a')
        /\ config a'
           = {| window_x := Py.Float (fst origin);
                window_y := Py.Float (snd origin);
                icon_size := icon_size (config a);
                muted_keyword := muted_keyword (config a);
                unmuted_keyword := unmuted_keyword (config a);
                check_interval := check_interval (config a) |}
        /\ (forall origin',
              mouseUp_ origin' (with_drag_start None v) a'
              = (Val (with_drag_start None v), a'))
        /\ (writable (fs a) -> reloaded a' = config a'))
  /\ (forall location,
      exists a',
        mouseUp_ origin (mouseDown_ location v) a = (Val (with_drag_start None v), a')
        /\ window_x (config a') = Py.Float (fst origin)
        /\ window_y (config a') = Py.Float (snd origin)).
Proof.
  assert (Hrel : forall v0 start, drag_start v0 = Some start ->
    exists a',
      mouseUp_ origin v0 a = (Val (with_drag_start None v0), a')
      /\ config a'
         = {| window_x := Py.Float (fst origin);
              window_y := Py.Float (snd origin);
              icon_size := icon_size (config a);
              muted_keyword := muted_keyword (config a);
              unmuted_keyword := unmuted_keyword (config a);
              check_interval := check_interval (config a) |}
      /\ (writable (fs a) -> reloaded a' = config a')).
  { intros v0 start Hd. unfold mouseUp_. rewrite Hd.
    unfold bind, set_window_x, set_window_y, modify. cbn.
    match goal with
    | |- context [save (with_config ?c ?s)] =>
        destruct (save_after_change c a) as (a1 & Hs & Hc & _ & _ & _ & _ & Hr);
        change (save (with_config c s)) with (save (with_config c a))
    end.
    rewrite Hs. exists a1. split; [reflexivity |]. split; [done |].
    intros Hw. rewrite Hc. by apply Hr. }
  split_and!.
  - intros Hd. unfold mouseUp_. by rewrite Hd.
  - intros start Hd. destruct (Hrel v start Hd) as (a' & Hm & Hc & Hr).
    exists a'. split_and!; try done.
  - intros location.
    destruct (Hrel (mouseDown_ location v) location eq_refl) as (a' & Hm & Hc & _).
    exists a'. rewrite Hm, Hc. by destruct v.
Qed.

(** X17.  A size change and the tick after it: the window is 40 larger than
    the chosen size and the image view 20 larger; the image itself is
    resized by the next tick, to the chosen size, so that it then fits its
    view with 10 to spare on each side. *)
Theorem icon_resize_geometry (size : Z) (v : View) (a : App) :
  exists v1 a1,
    Monitor_setIconSize_ size v a = (Val v1, a1)
    /\ icon_size (config a1) = Py.Int size
    /\ window_width v1 = Py.Int (size + 40)
    /\ window_height v1 = Py.Int (size + 40)
    /\ image_view_width v1 = Py.Int (size + 20)
    /\ image_view_height v1 = Py.Int (size + 20)
    /\ image v1 = image v
    /\ (forall icons env,
          (forall s, icon_exists icons (icon_for s) = true
                     /\ image_loads icons (icon_for s) = true) ->
          exists v2 a2 file,
            Monitor_updateStatus_ icons env v1 a1 = (Val v2, a2)
            /\ image v2 = Some {| icon_file := file; image_side := Py.Int size |}
            /\ image_view_width v2 = Py.Int (size + 20)
            /\ window_width v2 = Py.Int (size + 40)).
Proof.
  unfold Monitor_setIconSize_, setIconSize_, bind, set_icon_size, modify.
  match goal with
  | |- context [save (with_config ?c a)] =>
      destruct (save_keeps_config c a) as (a1 & -> & Hc)
  end.
  eexists _, a1. split; [reflexivity |]. rewrite Hc. cbn.
  split_and!; try done; try (f_equal; lia).
  intros icons env Hi.
  destruct (poll_uniform env (config a1)) as (ans & e & qs & Hp & _).
  specialize (Hp a1 eq_refl).
  unfold Monitor_updateStatus_, bind. rewrite Hp.
  unfold View_updateStatus_. destruct (Hi ans) as [-> ->].
  unfold bind, get. cbn. rewrite Hc. cbn.
  eexists _, _, _. split; [reflexivity |]. cbn.
  split_and!; try done; f_equal; lia.
Qed.

(** X18.  Through a whole run exactly one timer is live: the monitor holds
    it, its period is the configured interval, and no other timer of the run
    loop can fire. *)
Theorem run_keeps_one_live_timer (a : App) :
  running a ->
  exists t tm,
    timer a = Some t
    /\ run_loop a !! t = Some tm
    /\ live_timers a = [tm]
    /\ period_ms tm = check_interval (config a)
    /\ (forall i tmi, run_loop a !! i = Some tmi -> valid tmi = true -> i = t).
Proof.
  intros Hr.
  destruct (running_single_timer a Hr) as (t & tm & Ht & Hl & Hv & Hp & Hlive).
  exists t, tm. split_and!; try done.
  intros i tmi Hi Hvi.
  destruct (running_tick_period a i tmi Hr Hi Hvi) as [Hti _]. congruence.
Qed.

End OverlayFacts.

(** ** The further properties at sample worlds *)

(** X1 at a sample world: a meeting with the microphone on, the default
    keywords. *)
Lemma poll_touches_only_error_and_queries_witness :
  literal_keywords (config (boot fs_writable))
  /\ exists v a',
       checkMuteStatus (meeting ["オーディオのミュート"; "ビデオの停止"]) (boot fs_writable)
       = (Val v, a')
       /\ config a' = config (boot fs_writable)
       /\ fs a' = fs (boot fs_writable).
Proof.
  assert (Hliteral : literal_keywords (config (boot fs_writable)))
    by (split; eexists; vm_compute; reflexivity).
  split; [exact Hliteral |].
  destruct (poll_touches_only_error_and_queries
              (meeting ["オーディオのミュート"; "ビデオの停止"]) (boot fs_writable) Hliteral)
    as (v & a' & Hp & Hc & _ & _ & Hf & _).
  by exists v, a'.
Defined.


(** X4 at a sample world: a meeting with the microphone on. *)
Lemma script_answers_are_recognised_witness :
  literal_keywords defaults
  /\ exists text,
    Some (Some "unmuted") = Some (Some text)
    /\ (text = "muted" \/ text = "unmuted" \/ text = "not_running"
        \/ Py.startswith "unknown:" text = true
        \/ Py.startswith "error:" text = true)
    /\ text <> "unknown"
    /\ recognised text = true.
Proof.
  assert (Hliteral : literal_keywords defaults)
    by (split; eexists; vm_compute; reflexivity).
  split; [exact Hliteral |].
  apply (script_answers_are_recognised
           (meeting ["オーディオのミュート"; "ビデオの停止"]) defaults
           (boot fs_writable)
           (with_queries [ExistsProcess "zoom.us"; MenuItemNames "zoom.us"]
              (boot fs_writable)) _ Hliteral).
  vm_compute. reflexivity.
Defined.

(** X6 at a sample world: the settings directory cannot be made. *)
Lemma failed_save_keeps_file_witness :
  exists line,
    save (boot fs_read_only)
    = (Val tt, with_stdout (stdout (boot fs_read_only) ++ [line])%list (boot fs_read_only))
    /\ Py.startswith "Failed to save config: " line = true
    /\ reloaded (snd (save (boot fs_read_only))) = reloaded (boot fs_read_only).
Proof.
  apply (failed_save_keeps_file (boot fs_read_only)).
  intros [Hm _]. discriminate Hm.
Defined.

(** X7 at a sample world: a hand-edited settings file. *)
Lemma load_then_save_normalises_witness :
  exists a' data',
    (Config_init ;; save) (boot fs_hand_edited) = (Val tt, a')
    /\ icon_size (config a') = Py.Int 300
    /\ file (fs a') = Holds (DocObject data')
    /\ data' !! "theme" = None.
Proof.
  destruct (load_then_save_normalises (boot fs_hand_edited)
              (<["theme" := Py.Str "dark"]> (<["icon_size" := Py.Int 300]> ∅)))
    as (a' & data' & Hrun & Hc & Hf & Hk & _).
  - split; reflexivity.
  - reflexivity.
  - exists a', data'. split; [exact Hrun |]. split; [by rewrite Hc |].
    split; [exact Hf |].
    destruct (data' !! "theme") eqn:Ht; [| reflexivity].
    assert (Hin : In "theme" settings_keys) by (apply Hk; by eexists).
    cbn in Hin. intuition discriminate.
Defined.

(** X8 at a sample world: the started monitor. *)
Lemma settings_in_memory_match_file_witness :
  reloaded started = config started.
Proof.
  apply settings_in_memory_match_file.
  - apply (running_main fs_writable
             (meeting ["オーディオのミュート"; "ビデオの停止"])).
    vm_compute. reflexivity.
  - split; reflexivity.
Defined.

(** X9 at a sample world: the started monitor, the interval set to 500 ms,
    then a restart into a meeting. *)
Lemma interval_change_survives_restart_witness :
  running started
  /\ exists a' b,
    setCheckInterval_ 500 started = (Val tt, a')
    /\ check_interval (config a') = Py.Int 500
    /\ main (meeting ["オーディオのミュート"]) (boot (fs a')) = (Val tt, b)
    /\ config b = config a'
    /\ live_timers b = [{| period_ms := Py.Int 500; valid := true |}].
Proof.
  assert (Hr : running started).
  { apply (running_main fs_writable
             (meeting ["オーディオのミュート"; "ビデオの停止"])).
    vm_compute. reflexivity. }
  split; [exact Hr |].
  apply (interval_change_survives_restart started 500
           (meeting ["オーディオのミュート"]) Hr).
  split; reflexivity.
Defined.

(** X23 at a sample world: a settings file whose icon size is a text. *)
Lemma startup_stops_on_unfit_settings_witness :
  exists e b,
    main (meeting []) (boot fs_icon_size_text) = (Raised e, b)
    /\ run_loop b = []
    /\ Py.type_name e = "TypeError".
Proof.
  destruct (startup_stops_on_unfit_settings fs_icon_size_text (meeting []) eq_refl)
    as (e & b & Hm & _ & Hr & _ & _ & Ht).
  exists e, b. split_and!; [exact Hm | exact Hr | by apply Ht].
Defined.


(** X15 at a sample world: all icons present, the default icon size. *)
Lemma tick_updates_icon_witness :
  exists ans v' a',
    checkMuteStatus (meeting ["オーディオのミュート"]) (boot fs_writable) = (Val ans, a')
    /\ Monitor_updateStatus_ icons_present (meeting ["オーディオのミュート"]) fresh_view
         (boot fs_writable)
       = (Val v', a')
    /\ image v' = Some {| icon_file := icon_for ans; image_side := Py.Int 100 |}.
Proof.
  destruct (tick_updates_icon icons_present (meeting ["オーディオのミュート"])
              fresh_view (boot fs_writable) eq_refl)
    as (ans & v' & a' & Hp & Ht & Hv & _).
  exists ans, v', a'. split; [exact Hp |]. split; [exact Ht |].
  cbn in Hv. by rewrite Hv.
Defined.

(** X18 at a sample world: the started monitor. *)
Lemma run_keeps_one_live_timer_witness :
  exists t tm,
    timer started = Some t
    /\ run_loop started !! t = Some tm
    /\ live_timers started = [tm].
Proof.
  destruct (run_keeps_one_live_timer started) as (t & tm & Ht & Hl & Hlive & _).
  - apply (running_main fs_writable
             (meeting ["オーディオのミュート"; "ビデオの停止"])).
    vm_compute. reflexivity.
  - exists t, tm. by split_and!.
Defined.

(** X19 at a sample world: both keywords in the menu, the unmuted one
    first. *)
Lemma plain_muted_first_witness :
  exists a',
    checkMuteStatus (meeting ["UNMUTED"; "Record"; "MUTED"]) (configured "MUTED" "UNMUTED")
    = (Val (Some true), a')
    /\ last_error a' = None.
Proof.
  apply (plain_muted_first (meeting ["UNMUTED"; "Record"; "MUTED"])
           (configured "MUTED" "UNMUTED") "MUTED" "UNMUTED"
           ["UNMUTED"; "Record"; "MUTED"]).
  - split; reflexivity.
  - reflexivity.
  - reflexivity.
  - reflexivity.
  - reflexivity.
  - exists "zoom.us". split; reflexivity.
  - right. right. by left.
Defined.

(** X20 at a sample world: only the unmuted keyword in the menu. *)
Lemma plain_unmuted_second_witness :
  exists a',
    checkMuteStatus (meeting ["Record"; "UNMUTED"]) (configured "MUTED" "UNMUTED")
    = (Val (Some false), a')
    /\ last_error a' = None.
Proof.
  apply (plain_unmuted_second (meeting ["Record"; "UNMUTED"])
           (configured "MUTED" "UNMUTED") "MUTED" "UNMUTED" ["Record"; "UNMUTED"]).
  - split; reflexivity.
  - reflexivity.
  - reflexivity.
  - reflexivity.
  - reflexivity.
  - exists "zoom.us". split; reflexivity.
  - intros x [<- | [<- | []]]; reflexivity.
  - right. by left.
Defined.

(** X21 at a sample world: neither keyword in the menu, one item without a
    name. *)
Lemma plain_neither_listed_witness :
  exists a',
    checkMuteStatus (meeting ["Record"; ""; "Leave"]) (configured "MUTED" "UNMUTED")
    = (Val None, a')
    /\ last_error a'
       = Some (keyword_not_found (config (configured "MUTED" "UNMUTED"))
               ++ Py.nl ++ Py.nl ++ "【実際のメニュー項目】" ++ Py.nl
               ++ item_lines (List.filter Py.truthy ["Record"; ""; "Leave"])).
Proof.
  apply (plain_neither_listed (meeting ["Record"; ""; "Leave"])
           (configured "MUTED" "UNMUTED") "MUTED" "UNMUTED" ["Record"; ""; "Leave"]).
  - split; reflexivity.
  - reflexivity.
  - reflexivity.
  - reflexivity.
  - reflexivity.
  - exists "zoom.us". split; reflexivity.
  - intros x [<- | [<- | [<- | []]]]; reflexivity.
  - intros x [<- | [<- | [<- | []]]]; reflexivity.
  - intros x [<- | [<- | [<- | []]]]; reflexivity.
Defined.
